(** * The Bitcoin Core wallet provider, embedded in Rocq

    A shallow embedding of [src/providers/bitcoin_core_wallet.ts] (and of the
    declarations of [wallet_provider.d.ts] it implements), followed by the
    properties of the adapter that the specification states.

    - JavaScript numbers are IEEE 754 binary64 values: they are modelled by
      Rocq's primitive floats, so that [utxo.amount * 1e8] and
      [btcPerKvB * 100000000 / 1000] round exactly as they do at run time.
    - An [async] method is a function from the world (the state of the node
      behind the RPC client and the lines written to the console) to a
      completion (a returned value or a thrown error) and the world it leaves.
    - The RPC client ([bitcoin-core]) and Node's [Buffer] are not part of the
      repository: the adapter is embedded over an arbitrary implementation
      of both, and a small scripted endpoint is used to run it on data. *)

From Stdlib Require Import String Ascii List ZArith NArith Floats Bool Lia.
Import ListNotations.

Local Open Scope string_scope.
Local Open Scope list_scope.

(** ** JavaScript values used by the adapter *)

Module Js.

(** [if (x)] on a number: [0], [-0] and [NaN] are falsy. *)
Definition truthy (x : float) : bool :=
  negb (PrimFloat.eqb x 0%float || PrimFloat.is_nan x).

(** [if (s)] on a string: only the empty string is falsy. *)
Definition truthy_string (s : string) : bool :=
  match s with
  | EmptyString => false
  | String _ _ => true
  end.

(** A property that may be missing reads as [undefined]; arithmetic turns
    [undefined] into [NaN]. *)
Definition toNumber (x : option float) : float :=
  match x with
  | Some v => v
  | None => PrimFloat.nan
  end.

(** [a >= b] on numbers. *)
Definition ge (a b : float) : bool := PrimFloat.leb b a.

(** [new Error(message)]. *)
Record Error : Type := { message : string }.

End Js.

(** ** The declarations of [wallet_provider] *)

Record Fees : Type := {
  fastestFee : float;
  halfHourFee : float;
  hourFee : float;
  economyFee : float;
  minimumFee : float
}.

(** The adapter builds its outputs without the [rawTransaction] property of
    the declared interface, so the record has the four properties it sets. *)
Record UTXO : Type := {
  txid : string;
  vout : Z;
  value : float;
  scriptPubKey : string
}.

Inductive Network : Type := MAINNET | TESTNET | SIGNET | RETEST.

Definition Network_value (n : Network) : string :=
  match n with
  | MAINNET => "mainnet"
  | TESTNET => "testnet"
  | SIGNET => "signet"
  | RETEST => "regtest"
  end.

(** ** The JSON-RPC client

    The shapes of the answers the adapter reads, and the calls it makes. *)

Module Rpc.

(** The options object handed to [new Client({...})]. *)
Record Options : Type := {
  wallet : string;
  network : string;
  username : string;
  password : string;
  host : string;
  port : Z
}.

(** One entry of [listunspent]. *)
Record Unspent : Type := {
  txid : string;
  vout : Z;
  amount : float;
  scriptPubKey : string
}.

(** One entry of [listreceivedbyaddress]. *)
Record Received : Type := {
  address : string;
  label : string;
  received : float
}.

(** The answer of [walletprocesspsbt]. *)
Record ProcessedPsbt : Type := {
  psbt : string;
  complete : bool
}.

(** The answer of [estimatesmartfee]; [feerate] is absent when the node has
    no estimate. *)
Record SmartFee : Type := {
  feerate : option float;
  blocks : Z
}.

(** The answer of [getwalletinfo]. *)
Record WalletInfo : Type := {
  walletname : string;
  txcount : Z
}.

(** A positional argument of a call whose arguments are optional. *)
Inductive Arg : Type :=
| ANumber (n : Z)
| ABoolean (b : bool)
| AString (s : string).

(** What a call resolves to: the promise is fulfilled or rejected. *)
Inductive Completion (A : Type) : Type :=
| Return (a : A)
| Throw (e : Js.Error).

Arguments Return {A} a.
Arguments Throw {A} e.

(** A call reads and may change the state of the node. *)
Definition Call (Node A : Type) : Type := Node -> Completion A * Node.

(** The methods of the client that the adapter calls. *)
Record Client (Node : Type) : Type := {
  getWalletInfo : Options -> Call Node WalletInfo;
  listReceivedByAddress : Options -> list Arg -> Call Node (list Received);
  getNewAddress : Options -> string -> string -> Call Node string;
  walletProcessPsbt : Options -> string -> Call Node ProcessedPsbt;
  estimateSmartFee : Options -> Z -> Call Node SmartFee;
  listUnspent : Options -> Z -> Z -> list string -> Call Node (list Unspent)
}.

Arguments getWalletInfo {Node} c _ _.
Arguments listReceivedByAddress {Node} c _ _ _.
Arguments getNewAddress {Node} c _ _ _ _.
Arguments walletProcessPsbt {Node} c _ _ _.
Arguments estimateSmartFee {Node} c _ _ _.
Arguments listUnspent {Node} c _ _ _ _ _.

End Rpc.

Export Rpc (Completion, Return, Throw).

(** ** Node's [Buffer], as far as [signPsbt] uses it *)

Inductive Encoding : Type := hex | base64.

Record BufferApi : Type := {
  Buffer : Type;
  Buffer_from : string -> Encoding -> Buffer;
  Buffer_toString : Buffer -> Encoding -> string
}.

(** ** The console and the world *)

Inductive ConsoleArg : Type :=
| Text (s : string)
| WalletInfoObject (o : Rpc.WalletInfo)
| ProcessedPsbtObject (o : Rpc.ProcessedPsbt).

Inductive ConsoleLine : Type :=
| console_log (args : list ConsoleArg)
| console_error (args : list ConsoleArg).

Record World (Node : Type) : Type := {
  node : Node;
  console : list ConsoleLine
}.

Arguments node {Node} w.
Arguments console {Node} w.
Arguments Build_World {Node} node console.

(** ** Asynchronous methods *)

Definition Async (Node A : Type) : Type := World Node -> Completion A * World Node.

Definition ret {Node A : Type} (a : A) : Async Node A :=
  fun w => (Return a, w).

Definition throw {Node A : Type} (e : Js.Error) : Async Node A :=
  fun w => (Throw e, w).

Definition bind {Node A B : Type} (m : Async Node A) (k : A -> Async Node B) : Async Node B :=
  fun w =>
    match m w with
    | (Return a, w') => k a w'
    | (Throw e, w') => (Throw e, w')
    end.

(** [try { m } catch (error) { handler error }]. *)
Definition try_catch {Node A : Type} (m : Async Node A) (handler : Js.Error -> Async Node A) : Async Node A :=
  fun w =>
    match m w with
    | (Return a, w') => (Return a, w')
    | (Throw e, w') => handler e w'
    end.

(** [await this.client.method(...)]. *)
Definition await {Node A : Type} (c : Rpc.Call Node A) : Async Node A :=
  fun w =>
    let (r, n) := c (node w) in
    (r, {| node := n; console := console w |}).

Definition write {Node : Type} (l : ConsoleLine) : Async Node unit :=
  fun w => (Return tt, {| node := node w; console := console w ++ [l] |}).

Declare Scope async_scope.
Delimit Scope async_scope with async.

Notation "x <- m ;; k" := (bind m (fun x => k))
  (at level 100, m at next level, right associativity) : async_scope.
Notation "m ;; k" := (bind m (fun _ => k))
  (at level 100, right associativity) : async_scope.

(** ** The adapter *)

(** [function convertBtcKvBToSatoshiPerByte(btcPerKvB: number)]. *)
Definition convertBtcKvBToSatoshiPerByte (btcPerKvB : float) : float :=
  let satoshiPerKB := (btcPerKvB * 100000000)%float in
  let satoshiPerByte := (satoshiPerKB / 1000)%float in
  satoshiPerByte.

(** [class BitcoinCoreWallet]: its only field is the client. *)
Record BitcoinCoreWallet : Type := {
  client : Rpc.Options
}.

Definition constructor (walletName host : string) (port : Z) (username password network : string)
  : BitcoinCoreWallet :=
  {| client := {| Rpc.wallet := walletName;
                  Rpc.network := network;
                  Rpc.username := username;
                  Rpc.password := password;
                  Rpc.host := host;
                  Rpc.port := port |} |}.

Definition initBitcoinCoreWallet (walletName host : string) (port : Z) (username password network : string)
  : BitcoinCoreWallet :=
  constructor walletName host port username password network.

(** What the promise of [connectWallet] can be fulfilled with: the declared
    type is [Promise<this>], the value handed back by the client is the
    answer of [getwalletinfo]. *)
Inductive Connected : Type :=
| this_instance (self : BitcoinCoreWallet)
| wallet_info (info : Rpc.WalletInfo).

(** The body of the [for ... of] loop of [getUtxos], with its [break]. *)
Fixpoint getUtxos_loop (amount : float) (filteredUtxos : list UTXO)
  (totalAmount : float) (result : list UTXO) : float * list UTXO :=
  match filteredUtxos with
  | [] => (totalAmount, result)
  | utxo :: rest =>
      let totalAmount := (totalAmount + value utxo)%float in
      let result := result ++ [utxo] in
      if Js.ge totalAmount amount then (totalAmount, result)
      else getUtxos_loop amount rest totalAmount result
  end.

(** The object literal built by [utxos.map] in [getUtxos]. *)
Definition toUTXO (utxo : Rpc.Unspent) : UTXO :=
  {| txid := Rpc.txid utxo;
     vout := Rpc.vout utxo;
     value := (Rpc.amount utxo * 1e8)%float;
     scriptPubKey := Rpc.scriptPubKey utxo |}.

Section Adapter.

Context {Node : Type}.
Variable rpc : Rpc.Client Node.
Variable buffer : BufferApi.

Local Open Scope async_scope.

Definition connectWallet (self : BitcoinCoreWallet) : Async Node Connected :=
  try_catch
    (walletInfo <- await (Rpc.getWalletInfo rpc (client self)) ;;
     write (console_log [WalletInfoObject walletInfo]) ;;
     ret (wallet_info walletInfo))
    (fun error =>
       throw {| Js.message := "Failed to connect to Bitcoin Core: " ++ Js.message error |}).

Definition getNetwork (self : BitcoinCoreWallet) : Async Node Network :=
  ret RETEST.

Definition getWalletProviderName (self : BitcoinCoreWallet) : Async Node string :=
  ret "bitcoin_core".

Definition getAddress (self : BitcoinCoreWallet) : Async Node string :=
  let label := "primary" in
  addresses <- await (Rpc.listReceivedByAddress rpc (client self) []) ;;
  let create : Async Node string :=
    newAddress <- await (Rpc.getNewAddress rpc (client self) label "bech32") ;;
    write (console_log [Text "Taproot Address:"; Text newAddress]) ;;
    ret newAddress in
  match addresses with
  | first :: _ =>
      if Js.truthy_string (Rpc.address first) then ret (Rpc.address first) else create
  | [] => create
  end.

Definition getNewAddress (self : BitcoinCoreWallet) : Async Node string :=
  let label := "primary" in
  addresses <- await (Rpc.listReceivedByAddress rpc (client self)
                        [Rpc.ANumber 0; Rpc.ABoolean true; Rpc.ABoolean true; Rpc.AString label]) ;;
  let create : Async Node string :=
    newAddress <- await (Rpc.getNewAddress rpc (client self) label "bech32m") ;;
    write (console_log [Text "Taproot Address:"; Text newAddress]) ;;
    ret newAddress in
  match addresses with
  | first :: _ =>
      if Js.truthy_string (Rpc.address first) then ret (Rpc.address first) else create
  | [] => create
  end.

Definition signPsbt (self : BitcoinCoreWallet) (psbtHex : string) : Async Node string :=
  write (console_log [Text "Signing PSBT with hex:"; Text psbtHex]) ;;
  signedPsbt <- await (Rpc.walletProcessPsbt rpc (client self)
                         (Buffer_toString buffer (Buffer_from buffer psbtHex hex) base64)) ;;
  write (console_log [Text "Signed PSBT:"; ProcessedPsbtObject signedPsbt]) ;;
  (if negb (Rpc.complete signedPsbt)
   then write (console_error [Text "PSBT signing incomplete"])
   else ret tt) ;;
  ret (Buffer_toString buffer (Buffer_from buffer (Rpc.psbt signedPsbt) base64) hex).

(** The [for ... of] loop of [signPsbts]; [signedPsbts] is the array it
    pushes to. *)
Fixpoint signPsbts_loop (self : BitcoinCoreWallet) (psbtsHexes : list string)
  (signedPsbts : list string) : Async Node (list string) :=
  match psbtsHexes with
  | [] => ret signedPsbts
  | psbtHex :: rest =>
      signedPsbt <- signPsbt self psbtHex ;;
      signPsbts_loop self rest (signedPsbts ++ [signedPsbt])
  end.

Definition signPsbts (self : BitcoinCoreWallet) (psbtsHexes : list string) : Async Node (list string) :=
  signPsbts_loop self psbtsHexes [].

Definition getNetworkFees (self : BitcoinCoreWallet) : Async Node Fees :=
  result <- await (Rpc.estimateSmartFee rpc (client self) 6) ;;
  let satoshis := convertBtcKvBToSatoshiPerByte (Js.toNumber (Rpc.feerate result)) in
  ret {| fastestFee := 1000;
         halfHourFee := satoshis;
         hourFee := satoshis;
         economyFee := satoshis;
         minimumFee := satoshis |}.

Definition getUtxos (self : BitcoinCoreWallet) (address : string) (amount : option float)
  : Async Node (list UTXO) :=
  utxos <- await (Rpc.listUnspent rpc (client self) 0 9999999 [address]) ;;
  let filteredUtxos := map toUTXO utxos in
  match amount with
  | Some amount =>
      if Js.truthy amount then
        let (totalAmount, result) := getUtxos_loop amount filteredUtxos 0 [] in
        ret (if Js.ge totalAmount amount then result else [])
      else ret filteredUtxos
  | None => ret filteredUtxos
  end.

(** The argument handed to [walletProcessPsbt] and the value handed back
    to the caller. *)
Definition toBase64 (psbtHex : string) : string :=
  Buffer_toString buffer (Buffer_from buffer psbtHex hex) base64.

Definition toHex (psbtBase64 : string) : string :=
  Buffer_toString buffer (Buffer_from buffer psbtBase64 base64) hex.

(** Signing a sequence one PSBT at a time: each is signed by [signPsbt] in
    the world left by the one before it, and the results are kept in the
    order of the inputs. *)
Inductive Signed (self : BitcoinCoreWallet)
  : World Node -> list string -> list string -> World Node -> Prop :=
| Signed_none (w : World Node) : Signed self w [] [] w
| Signed_next (w w1 w2 : World Node) (psbtHex signedPsbt : string)
    (psbtsHexes signedPsbts : list string) :
    signPsbt self psbtHex w = (Return signedPsbt, w1) ->
    Signed self w1 psbtsHexes signedPsbts w2 ->
    Signed self w (psbtHex :: psbtsHexes) (signedPsbt :: signedPsbts) w2.

End Adapter.

(** ** A [Buffer] for running the adapter

    The two encodings [signPsbt] converts between, on byte sequences:
    hexadecimal digits read in pairs up to the first pair that is not
    hexadecimal, and base64 with [=] padding (the decoder also reads the
    URL alphabet, skips characters outside the alphabet and stops at the
    first [=]). *)

Module NodeBuffer.

Local Open Scope N_scope.

Definition hex_value (c : ascii) : option N :=
  let n := N_of_ascii c in
  if (48 <=? n) && (n <=? 57) then Some (n - 48)
  else if (97 <=? n) && (n <=? 102) then Some (n - 87)
  else if (65 <=? n) && (n <=? 70) then Some (n - 55)
  else None.

Definition hex_digit (n : N) : ascii :=
  ascii_of_N (if n <? 10 then 48 + n else 87 + n).

Fixpoint from_hex (s : string) : list N :=
  match s with
  | String a (String b rest) =>
      match hex_value a, hex_value b with
      | Some h, Some l => (16 * h + l) :: from_hex rest
      | _, _ => []
      end
  | _ => []
  end.

Fixpoint to_hex (bytes : list N) : string :=
  match bytes with
  | [] => EmptyString
  | x :: rest => String (hex_digit (x / 16)) (String (hex_digit (x mod 16)) (to_hex rest))
  end.

Definition base64_digit (n : N) : ascii :=
  ascii_of_N (if n <? 26 then 65 + n
              else if n <? 52 then 71 + n
              else if n <? 62 then n - 4
              else if n =? 62 then 43 else 47).

Definition base64_value (c : ascii) : option N :=
  let n := N_of_ascii c in
  if (65 <=? n) && (n <=? 90) then Some (n - 65)
  else if (97 <=? n) && (n <=? 122) then Some (n - 71)
  else if (48 <=? n) && (n <=? 57) then Some (n + 4)
  else if (n =? 43) || (n =? 45) then Some 62
  else if (n =? 47) || (n =? 95) then Some 63
  else None.

Fixpoint to_base64 (bytes : list N) : string :=
  match bytes with
  | [] => EmptyString
  | [x] =>
      let n := x * 65536 in
      String (base64_digit (n / 262144)) (String (base64_digit ((n / 4096) mod 64)) "==")
  | [x; y] =>
      let n := x * 65536 + y * 256 in
      String (base64_digit (n / 262144)) (String (base64_digit ((n / 4096) mod 64))
        (String (base64_digit ((n / 64) mod 64)) "="))
  | x :: y :: z :: rest =>
      let n := x * 65536 + y * 256 + z in
      String (base64_digit (n / 262144)) (String (base64_digit ((n / 4096) mod 64))
        (String (base64_digit ((n / 64) mod 64)) (String (base64_digit (n mod 64))
          (to_base64 rest))))
  end.

Fixpoint sextets (s : string) : list N :=
  match s with
  | EmptyString => []
  | String c rest =>
      if N_of_ascii c =? 61 then []
      else match base64_value c with
           | Some v => v :: sextets rest
           | None => sextets rest
           end
  end.

Fixpoint pack (digits : list N) : list N :=
  match digits with
  | a :: b :: c :: d :: rest =>
      let n := ((a * 64 + b) * 64 + c) * 64 + d in
      (n / 65536) :: ((n / 256) mod 256) :: (n mod 256) :: pack rest
  | [a; b; c] =>
      let n := (a * 64 + b) * 64 + c in
      [n / 1024; (n / 4) mod 256]
  | [a; b] => [(a * 64 + b) / 16]
  | _ => []
  end.

Definition from (s : string) (encoding : Encoding) : list N :=
  match encoding with
  | hex => from_hex s
  | base64 => pack (sextets s)
  end.

Definition toString (bytes : list N) (encoding : Encoding) : string :=
  match encoding with
  | hex => to_hex bytes
  | base64 => to_base64 bytes
  end.

Definition api : BufferApi :=
  {| Buffer := list N; Buffer_from := from; Buffer_toString := toString |}.

End NodeBuffer.

(** ** A scripted endpoint for running the adapter

    A deterministic stand-in for the node, small enough to compute with. It
    answers the six calls from a table: the address book of the wallet, a
    pool of addresses not handed out yet, the unspent outputs by address,
    one fee estimate and the wallet's answers to PSBTs. It reads the
    arguments [(minconf, include_empty, include_watchonly, label)] of
    [listReceivedByAddress] the way the adapter's comments do: the fourth
    selects a label. Called with no argument the listing holds the
    addresses that have received funds, whatever their label. *)

Module TestNode.

Record State : Type := {
  online : bool;
  info : Rpc.WalletInfo;
  addressBook : list Rpc.Received;
  keypool : list string;
  coins : list (string * Rpc.Unspent);
  estimate : Rpc.SmartFee;
  signer : list (string * Rpc.ProcessedPsbt)
}.

Definition refused : Js.Error := {| Js.message := "connect ECONNREFUSED 127.0.0.1:18443" |}.

Definition guarded {A : Type} (c : Rpc.Call State A) : Rpc.Call State A :=
  fun s => if online s then c s else (Throw refused, s).

Definition funded (r : Rpc.Received) : bool := PrimFloat.ltb 0 (Rpc.received r).

Fixpoint lookup {A : Type} (key : string) (table : list (string * A)) : option A :=
  match table with
  | [] => None
  | (k, v) :: rest => if String.eqb k key then Some v else lookup key rest
  end.

Definition getWalletInfo (_ : Rpc.Options) : Rpc.Call State Rpc.WalletInfo :=
  guarded (fun s => (Return (info s), s)).

Definition listReceivedByAddress (_ : Rpc.Options) (args : list Rpc.Arg)
  : Rpc.Call State (list Rpc.Received) :=
  guarded (fun s =>
    match args with
    | [] => (Return (filter funded (addressBook s)), s)
    | [Rpc.ANumber _; Rpc.ABoolean include_empty; Rpc.ABoolean _; Rpc.AString wanted] =>
        (Return (filter (fun r => (include_empty || funded r) && String.eqb (Rpc.label r) wanted)
                        (addressBook s)), s)
    | _ => (Throw {| Js.message := "Invalid parameters" |}, s)
    end).

Definition getNewAddress (_ : Rpc.Options) (label _ : string) : Rpc.Call State string :=
  guarded (fun s =>
    match keypool s with
    | [] => (Throw {| Js.message := "Error: Keypool ran out, please call keypoolrefill first" |}, s)
    | fresh :: rest =>
        (Return fresh,
         {| online := online s;
            info := info s;
            addressBook := addressBook s
                           ++ [{| Rpc.address := fresh; Rpc.label := label; Rpc.received := 0 |}];
            keypool := rest;
            coins := coins s;
            estimate := estimate s;
            signer := signer s |})
    end).

Definition walletProcessPsbt (_ : Rpc.Options) (psbtBase64 : string)
  : Rpc.Call State Rpc.ProcessedPsbt :=
  guarded (fun s =>
    match lookup psbtBase64 (signer s) with
    | Some answer => (Return answer, s)
    | None => (Throw {| Js.message := "TX decode failed" |}, s)
    end).

Definition estimateSmartFee (_ : Rpc.Options) (_ : Z) : Rpc.Call State Rpc.SmartFee :=
  guarded (fun s => (Return (estimate s), s)).

Definition listUnspent (_ : Rpc.Options) (_ _ : Z) (addresses : list string)
  : Rpc.Call State (list Rpc.Unspent) :=
  guarded (fun s =>
    (Return (map snd (filter (fun c => existsb (String.eqb (fst c)) addresses) (coins s))), s)).

Definition rpc : Rpc.Client State :=
  {| Rpc.getWalletInfo := getWalletInfo;
     Rpc.listReceivedByAddress := listReceivedByAddress;
     Rpc.getNewAddress := getNewAddress;
     Rpc.walletProcessPsbt := walletProcessPsbt;
     Rpc.estimateSmartFee := estimateSmartFee;
     Rpc.listUnspent := listUnspent |}.

End TestNode.

(** ** Data for running the adapter *)

Module Sample.

Definition wallet : BitcoinCoreWallet :=
  initBitcoinCoreWallet "staker" "127.0.0.1" 18443 "rpcuser" "rpcpassword" "regtest".

Definition payee : string := "bcrt1qpayee".

Definition coin (id : string) (index : Z) (btc : float) : Rpc.Unspent :=
  {| Rpc.txid := id; Rpc.vout := index; Rpc.amount := btc; Rpc.scriptPubKey := "0014aa" |}.

(** 0.0005, 0.000003 and 0.000002 whole coins, as binary64 values. *)
Definition btc_0_0005 : float := 0x1.0624dd2f1a9fcp-11%float.
Definition btc_0_000003 : float := 0x1.92a737110e454p-19%float.
Definition btc_0_000002 : float := 0x1.0c6f7a0b5ed8dp-19%float.

(** The native fee rate 0.00001000, as a binary64 value. *)
Definition rate_0_00001 : float := 0x1.4f8b588e368f1p-17%float.

Definition unsigned_psbt : string := "70736274ff0100".
Definition partly_signed : Rpc.ProcessedPsbt :=
  {| Rpc.psbt := "cHNidP8BAQ=="; Rpc.complete := false |}.
Definition fully_signed : Rpc.ProcessedPsbt :=
  {| Rpc.psbt := "cHNidP8BAg=="; Rpc.complete := true |}.

Definition state : TestNode.State :=
  {| TestNode.online := true;
     TestNode.info := {| Rpc.walletname := "staker"; Rpc.txcount := 3 |};
     TestNode.addressBook :=
       [ {| Rpc.address := "bcrt1qsavings"; Rpc.label := "savings"; Rpc.received := 1 |};
         {| Rpc.address := "bcrt1qprimary"; Rpc.label := "primary"; Rpc.received := 2 |} ];
     TestNode.keypool := ["bcrt1qfresh0"; "bcrt1qfresh1"; "bcrt1qfresh2"];
     TestNode.coins :=
       [ (payee, coin "aa" 0 btc_0_0005);
         ("bcrt1qother", coin "bb" 1 1);
         (payee, coin "cc" 0 btc_0_000003);
         (payee, coin "dd" 2 btc_0_000002) ];
     TestNode.estimate := {| Rpc.feerate := Some rate_0_00001; Rpc.blocks := 6 |};
     TestNode.signer :=
       [ ("cHNidP8BAA==", partly_signed);
         ("cHNidP8BAw==", fully_signed) ] |}.

(** The same wallet before it has received anything. *)
Definition unfunded : TestNode.State :=
  {| TestNode.online := true;
     TestNode.info := TestNode.info state;
     TestNode.addressBook := [];
     TestNode.keypool := TestNode.keypool state;
     TestNode.coins := [];
     TestNode.estimate := TestNode.estimate state;
     TestNode.signer := TestNode.signer state |}.

(** The same node when it cannot be reached. *)
Definition offline : TestNode.State :=
  {| TestNode.online := false;
     TestNode.info := TestNode.info state;
     TestNode.addressBook := TestNode.addressBook state;
     TestNode.keypool := TestNode.keypool state;
     TestNode.coins := TestNode.coins state;
     TestNode.estimate := TestNode.estimate state;
     TestNode.signer := TestNode.signer state |}.

Definition world (s : TestNode.State) : World TestNode.State :=
  {| node := s; console := [] |}.

End Sample.

Module Run.

Import Sample.

Definition listed : list Rpc.Unspent :=
  [coin "aa" 0 btc_0_0005; coin "cc" 0 btc_0_000003; coin "dd" 2 btc_0_000002].

Definition utxo (id : string) (index : Z) (satoshis : float) : UTXO :=
  {| txid := id; vout := index; value := satoshis; scriptPubKey := "0014aa" |}.

(** The outputs of the example of the specification, in satoshis. *)
Definition spec_example : list UTXO :=
  [utxo "aa" 0 500; utxo "bb" 0 300; utxo "cc" 0 200].

Definition select (amount : float) (available : list UTXO) : list UTXO :=
  let (totalAmount, result) := getUtxos_loop amount available 0 [] in
  if Js.ge totalAmount amount then result else [].

End Run.

(** ** Cumulative value of a sequence of outputs

    The running total of the [value] fields in listing order, added as
    JavaScript adds them, and the test that a sequence covers a target. *)

Definition cumulative (utxos : list UTXO) : float :=
  fold_left (fun total utxo => (total + value utxo)%float) utxos 0%float.

Definition reaches (amount : float) (utxos : list UTXO) : bool :=
  Js.ge (cumulative utxos) amount.

(** ** The rest of the client and of the adapter

    The calls of the client that the remaining methods make, the part of
    [bitcoinjs-lib] and [ecpair] they use, and the methods themselves.
    [on], which registers a callback on the client, is left out. *)

Module WalletRpc.

(** The answer of [validateaddress] and of [getaddressinfo]; [pubkey] is
    absent when the node does not know the key. *)
Record AddressInfo : Type := {
  isvalid : bool;
  pubkey : option string
}.

(** The answer of [getblockchaininfo]. *)
Record BlockchainInfo : Type := {
  chain : string;
  blocks : Z
}.

(** The answer of [gettransaction]. *)
Record TransactionInfo : Type := {
  txid : string;
  confirmations : Z;
  hex : string
}.

Record Client (Node : Type) : Type := {
  core : Rpc.Client Node;
  dumpPrivKey : Rpc.Options -> string -> Rpc.Call Node string;
  getTransaction : Rpc.Options -> string -> Rpc.Call Node TransactionInfo;
  validateAddress : Rpc.Options -> string -> Rpc.Call Node AddressInfo;
  getAddressInfo : Rpc.Options -> string -> Rpc.Call Node AddressInfo;
  generateToAddress : Rpc.Options -> Z -> string -> Rpc.Call Node (list string);
  signMessage : Rpc.Options -> string -> string -> Rpc.Call Node string;
  getBalance : Rpc.Options -> Rpc.Call Node float;
  sendRawTransaction : Rpc.Options -> string -> Rpc.Call Node string;
  getBlockchainInfo : Rpc.Options -> Rpc.Call Node BlockchainInfo
}.

Arguments core {Node} c.
Arguments dumpPrivKey {Node} c _ _ _.
Arguments getTransaction {Node} c _ _ _.
Arguments validateAddress {Node} c _ _ _.
Arguments getAddressInfo {Node} c _ _ _.
Arguments generateToAddress {Node} c _ _ _ _.
Arguments signMessage {Node} c _ _ _ _.
Arguments getBalance {Node} c _ _.
Arguments sendRawTransaction {Node} c _ _ _.
Arguments getBlockchainInfo {Node} c _ _.

End WalletRpc.

Module BitcoinJs.

(** [bitcoin.networks]. *)
Inductive networks : Type := bitcoin | testnet | regtest.

(** What the adapter uses of [ECPair] and of [bitcoin.Psbt]. A call that
    changes the PSBT gives the changed PSBT; any of them may throw. *)
Record Library : Type := {
  ECPair : Type;
  Psbt : Type;
  Transaction : Type;
  fromWIF : string -> networks -> Completion ECPair;
  fromBase64 : string -> Completion Psbt;
  inputCount : Psbt -> nat;
  signInput : Psbt -> nat -> ECPair -> Completion Psbt;
  finalizeAllInputs : Psbt -> Completion Psbt;
  extractTransaction : Psbt -> Completion Transaction;
  toHex : Transaction -> string;
  toBase64 : Psbt -> string
}.

End BitcoinJs.

(** A synchronous call inside an [async] method: its exception rejects the
    promise. *)
Definition now {Node A : Type} (c : Completion A) : Async Node A :=
  fun w => (c, w).

Section AdapterRest.

Context {Node : Type}.
Variable wrpc : WalletRpc.Client Node.
Variable lib : BitcoinJs.Library.

Local Open Scope async_scope.

(** The node answers [dumpprivkey] with a string, and [toString("hex")] of
    a string is the string: the line logged holds the key twice. *)
Definition dumpPrivKey (self : BitcoinCoreWallet) (address : option string)
  : Async Node (BitcoinJs.ECPair lib) :=
  addr <- match address with
          | Some address =>
              if Js.truthy_string address then ret address
              else getAddress (WalletRpc.core wrpc) self
          | None => getAddress (WalletRpc.core wrpc) self
          end ;;
  privateKey <- await (WalletRpc.dumpPrivKey wrpc (client self) addr) ;;
  write (console_log [Text "private key: "; Text privateKey; Text privateKey]) ;;
  now (BitcoinJs.fromWIF lib privateKey BitcoinJs.regtest).

Definition getTransaction (self : BitcoinCoreWallet) (txid : string)
  : Async Node WalletRpc.TransactionInfo :=
  await (WalletRpc.getTransaction wrpc (client self) txid).

Definition getPublicKeyHex (self : BitcoinCoreWallet) : Async Node (option string) :=
  address <- getAddress (WalletRpc.core wrpc) self ;;
  validateAddressInfo <- await (WalletRpc.validateAddress wrpc (client self) address) ;;
  ret (WalletRpc.pubkey validateAddressInfo).

Definition getPublicKey (self : BitcoinCoreWallet) (address : string) : Async Node (option string) :=
  res <- await (WalletRpc.getAddressInfo wrpc (client self) address) ;;
  ret (WalletRpc.pubkey res).

(** [ecPairs.forEach(ecPair => { psbt.signInput(i, ecPair); })]. *)
Fixpoint forEach_signInput (psbt : BitcoinJs.Psbt lib) (i : nat)
  (ecPairs : list (BitcoinJs.ECPair lib)) : Completion (BitcoinJs.Psbt lib) :=
  match ecPairs with
  | [] => Return psbt
  | ecPair :: rest =>
      match BitcoinJs.signInput lib psbt i ecPair with
      | Return psbt => forEach_signInput psbt i rest
      | Throw e => Throw e
      end
  end.

(** [for (let i = 0; i < psbt.inputCount; i++)], entered at [i]. The test
    reads [inputCount] at every turn, so the number of turns is bounded by
    [fuel]; [None] is a loop that has not ended within the bound. *)
Fixpoint signPsbtFromBase64_loop (fuel : nat) (psbt : BitcoinJs.Psbt lib) (i : nat)
  (ecPairs : list (BitcoinJs.ECPair lib)) : option (Completion (BitcoinJs.Psbt lib)) :=
  match fuel with
  | O => None
  | S fuel =>
      if Nat.ltb i (BitcoinJs.inputCount lib psbt) then
        match forEach_signInput psbt i ecPairs with
        | Return psbt => signPsbtFromBase64_loop fuel psbt (S i) ecPairs
        | Throw e => Some (Throw e)
        end
      else Some (Return psbt)
  end.

(** The method makes no call to the node and writes nothing: it is given
    by the completion of its promise. *)
Definition signPsbtFromBase64 (fuel : nat) (self : BitcoinCoreWallet) (psbtBase64 : string)
  (ecPairs : list (BitcoinJs.ECPair lib)) (shouldExtractTransaction : bool)
  : option (Completion string) :=
  match BitcoinJs.fromBase64 lib psbtBase64 with
  | Throw e => Some (Throw e)
  | Return psbt =>
      match signPsbtFromBase64_loop fuel psbt 0 ecPairs with
      | None => None
      | Some (Throw e) => Some (Throw e)
      | Some (Return psbt) =>
          if shouldExtractTransaction then
            match BitcoinJs.finalizeAllInputs lib psbt with
            | Throw e => Some (Throw e)
            | Return psbt =>
                match BitcoinJs.extractTransaction lib psbt with
                | Throw e => Some (Throw e)
                | Return transaction => Some (Return (BitcoinJs.toHex lib transaction))
                end
            end
          else Some (Return (BitcoinJs.toBase64 lib psbt))
      end
  end.

Definition mine (self : BitcoinCoreWallet) (num : Z) (addr : string) : Async Node unit :=
  await (WalletRpc.generateToAddress wrpc (client self) num addr) ;;
  ret tt.

Definition signMessageBIP322 (self : BitcoinCoreWallet) (message : string) : Async Node string :=
  address <- getAddress (WalletRpc.core wrpc) self ;;
  signature <- await (WalletRpc.signMessage wrpc (client self) address message) ;;
  ret signature.

Definition getBalance (self : BitcoinCoreWallet) : Async Node float :=
  await (WalletRpc.getBalance wrpc (client self)).

Definition pushTx (self : BitcoinCoreWallet) (txHex : string) : Async Node string :=
  await (WalletRpc.sendRawTransaction wrpc (client self) txHex).

Definition getBTCTipHeight (self : BitcoinCoreWallet) : Async Node Z :=
  blockchainInfo <- await (WalletRpc.getBlockchainInfo wrpc (client self)) ;;
  ret (WalletRpc.blocks blockchainInfo).

(** The signing calls of [signPsbtFromBase64] in the order the two loops
    make them: every key pair on input [0], then every key pair on input
    [1], and so on; the first call that throws ends the signing. *)
Fixpoint signInputs (psbt : BitcoinJs.Psbt lib) (calls : list (nat * BitcoinJs.ECPair lib))
  : Completion (BitcoinJs.Psbt lib) :=
  match calls with
  | [] => Return psbt
  | (i, ecPair) :: rest =>
      match BitcoinJs.signInput lib psbt i ecPair with
      | Return psbt => signInputs psbt rest
      | Throw e => Throw e
      end
  end.

End AdapterRest.

(** ** A scripted wallet and library for running the rest of the adapter *)

Module TestWallet.

Record State : Type := {
  base : TestNode.State;
  wifs : list (string * string);
  pubkeys : list (string * string);
  height : Z
}.

Definition with_base (s : State) (b : TestNode.State) : State :=
  {| base := b; wifs := wifs s; pubkeys := pubkeys s; height := height s |}.

Definition lift {A : Type} (c : Rpc.Call TestNode.State A) : Rpc.Call State A :=
  fun s => let (r, b) := c (base s) in (r, with_base s b).

Definition guarded {A : Type} (c : Rpc.Call State A) : Rpc.Call State A :=
  fun s => if TestNode.online (base s) then c s else (Throw TestNode.refused, s).

Definition core : Rpc.Client State :=
  {| Rpc.getWalletInfo := fun o => lift (TestNode.getWalletInfo o);
     Rpc.listReceivedByAddress := fun o args => lift (TestNode.listReceivedByAddress o args);
     Rpc.getNewAddress := fun o l t => lift (TestNode.getNewAddress o l t);
     Rpc.walletProcessPsbt := fun o p => lift (TestNode.walletProcessPsbt o p);
     Rpc.estimateSmartFee := fun o n => lift (TestNode.estimateSmartFee o n);
     Rpc.listUnspent := fun o a b l => lift (TestNode.listUnspent o a b l) |}.

Definition dumpPrivKey (_ : Rpc.Options) (address : string) : Rpc.Call State string :=
  guarded (fun s =>
    match TestNode.lookup address (wifs s) with
    | Some wif => (Return wif, s)
    | None => (Throw {| Js.message := "Private key for address is not known" |}, s)
    end).

Definition addressInfo (_ : Rpc.Options) (address : string) : Rpc.Call State WalletRpc.AddressInfo :=
  guarded (fun s =>
    (Return {| WalletRpc.isvalid := true;
               WalletRpc.pubkey := TestNode.lookup address (pubkeys s) |}, s)).

Definition signMessage (_ : Rpc.Options) (address message : string) : Rpc.Call State string :=
  guarded (fun s =>
    match TestNode.lookup address (wifs s) with
    | Some wif => (Return ("signed by " ++ address ++ ": " ++ message)%string, s)
    | None => (Throw {| Js.message := "Private key not available" |}, s)
    end).

Definition rpc : WalletRpc.Client State :=
  {| WalletRpc.core := core;
     WalletRpc.dumpPrivKey := dumpPrivKey;
     WalletRpc.getTransaction := fun _ id =>
       guarded (fun s => (Return {| WalletRpc.txid := id; WalletRpc.confirmations := 1;
                                    WalletRpc.hex := "02000000" |}, s));
     WalletRpc.validateAddress := addressInfo;
     WalletRpc.getAddressInfo := addressInfo;
     WalletRpc.generateToAddress := fun _ num _ =>
       guarded (fun s => (Return [],
                          {| base := base s; wifs := wifs s; pubkeys := pubkeys s;
                             height := (height s + num)%Z |}));
     WalletRpc.signMessage := signMessage;
     WalletRpc.getBalance := fun _ => guarded (fun s => (Return 3%float, s));
     WalletRpc.sendRawTransaction := fun _ _ => guarded (fun s => (Return "txid", s));
     WalletRpc.getBlockchainInfo := fun _ =>
       guarded (fun s => (Return {| WalletRpc.chain := "regtest"; WalletRpc.blocks := height s |}, s)) |}.

(** A PSBT that only records who signed which input. *)
Record Psbt : Type := {
  text : string;
  inputs : nat;
  signatures : list (nat * string);
  finalized : bool
}.

Definition signInput (psbt : Psbt) (i : nat) (ecPair : string) : Completion Psbt :=
  if Nat.ltb i (inputs psbt) then
    Return {| text := text psbt; inputs := inputs psbt;
              signatures := signatures psbt ++ [(i, ecPair)];
              finalized := finalized psbt |}
  else Throw {| Js.message := "No input" |}.

Definition signed (psbt : Psbt) (i : nat) : bool :=
  existsb (fun s => Nat.eqb (fst s) i) (signatures psbt).

Definition library : BitcoinJs.Library :=
  {| BitcoinJs.ECPair := string;
     BitcoinJs.Psbt := Psbt;
     BitcoinJs.Transaction := string;
     BitcoinJs.fromWIF := fun wif net =>
       match wif, net with
       | String "c" _, BitcoinJs.regtest => Return wif
       | _, _ => Throw {| Js.message := "Invalid network version" |}
       end;
     BitcoinJs.fromBase64 := fun s =>
       match s with
       | EmptyString => Throw {| Js.message := "Format Error: Invalid Magic Number" |}
       | _ => Return {| text := s; inputs := 2; signatures := []; finalized := false |}
       end;
     BitcoinJs.inputCount := inputs;
     BitcoinJs.signInput := signInput;
     BitcoinJs.finalizeAllInputs := fun psbt =>
       if forallb (signed psbt) (seq 0 (inputs psbt)) then
         Return {| text := text psbt; inputs := inputs psbt;
                   signatures := signatures psbt; finalized := true |}
       else Throw {| Js.message := "No script found for input" |};
     BitcoinJs.extractTransaction := fun psbt =>
       if finalized psbt
       then Return (text psbt ++ String.concat EmptyString (map snd (signatures psbt)))%string
       else Throw {| Js.message := "Not finalized" |};
     BitcoinJs.toHex := fun transaction => transaction;
     BitcoinJs.toBase64 := fun psbt =>
       (text psbt ++ String.concat EmptyString (map snd (signatures psbt)))%string |}.

Definition state (b : TestNode.State) : State :=
  {| base := b;
     wifs := [("bcrt1qsavings", "cSavingsKey"); ("bcrt1qprimary", "cPrimaryKey");
              ("bcrt1qfresh0", "cFresh0Key"); ("bcrt1qfresh1", "cFresh1Key")];
     pubkeys := [("bcrt1qsavings", "02aa"); ("bcrt1qprimary", "02bb");
                 ("bcrt1qfresh0", "02c0"); ("bcrt1qfresh1", "02c1")];
     height := 100 |}.

Definition world (b : TestNode.State) : World State :=
  {| node := state b; console := [] |}.

End TestWallet.

(** * Properties *)

(** ** Numbers *)

Lemma positive_not_le_zero (a : float) :
  PrimFloat.ltb 0 a = true -> PrimFloat.leb a 0 = false.
Proof.
  rewrite ltb_spec, leb_spec.
  change (Prim2SF 0) with (S754_zero false).
  destruct (Prim2SF a) as [s | s | | s m e]; try destruct s;
    cbv [SFltb SFleb SFcompare]; congruence.
Qed.

Lemma positive_truthy (a : float) :
  PrimFloat.ltb 0 a = true -> Js.truthy a = true.
Proof.
  unfold Js.truthy, PrimFloat.is_nan.
  rewrite ltb_spec, !FloatAxioms.eqb_spec.
  change (Prim2SF 0) with (S754_zero false).
  destruct (Prim2SF a) as [s | s | | s m e]; try destruct s;
    cbv [SFltb SFeqb SFcompare]; try congruence; try reflexivity.
  intros _. rewrite Z.compare_refl.
  change (PosDef.Pos.compare_cont Eq m m) with (Pos.compare m m).
  rewrite Pos.compare_refl. reflexivity.
Qed.

Lemma positive_not_reached_by_nothing (amount : float) :
  PrimFloat.ltb 0 amount = true -> reaches amount [] = false.
Proof.
  intros H. unfold reaches, cumulative, Js.ge. simpl. now apply positive_not_le_zero.
Qed.

Lemma cumulative_snoc (done : list UTXO) (utxo : UTXO) :
  cumulative (done ++ [utxo]) = (cumulative done + value utxo)%float.
Proof.
  unfold cumulative. rewrite fold_left_app. reflexivity.
Qed.

(** ** The accumulation loop of [getUtxos] *)

(** What the loop leaves behind when it is entered with [done] pushed and
    [rest] still to visit: either it broke out at the first prefix that
    covers the target, or it visited every output and none did. *)
Lemma getUtxos_loop_spec (amount : float) :
  forall (rest done : list UTXO) (totalAmount : float) (result : list UTXO),
    (forall j, 0 < j <= length done -> reaches amount (firstn j (done ++ rest)) = false) ->
    getUtxos_loop amount rest (cumulative done) done = (totalAmount, result) ->
    totalAmount = cumulative result /\
    ((exists k, length done < k <= length (done ++ rest) /\
                result = firstn k (done ++ rest) /\
                reaches amount result = true /\
                forall j, 0 < j < k -> reaches amount (firstn j (done ++ rest)) = false)
     \/ (result = done ++ rest /\
         forall j, 0 < j <= length (done ++ rest) ->
                   reaches amount (firstn j (done ++ rest)) = false)).
Proof.
  induction rest as [| utxo rest IH]; intros done totalAmount result Hdone Hrun.
  - simpl in Hrun. injection Hrun as <- <-. split; [reflexivity |].
    right. rewrite app_nil_r in *. split; [reflexivity | exact Hdone].
  - simpl in Hrun. rewrite <- cumulative_snoc in Hrun.
    assert (Hsplit : done ++ utxo :: rest = (done ++ [utxo]) ++ rest)
      by (rewrite <- app_assoc; reflexivity).
    assert (Hprefix : firstn (S (length done)) (done ++ utxo :: rest) = done ++ [utxo]).
    { rewrite Hsplit. replace (S (length done)) with (length (done ++ [utxo]) + 0).
      - rewrite firstn_app_2. simpl. apply app_nil_r.
      - rewrite length_app. simpl. lia. }
    destruct (Js.ge (cumulative (done ++ [utxo])) amount) eqn:Hge.
    + injection Hrun as <- <-. split; [reflexivity |].
      left. exists (S (length done)). repeat split.
      * lia.
      * rewrite length_app. simpl. lia.
      * symmetry. exact Hprefix.
      * exact Hge.
      * intros j Hj. apply Hdone. lia.
    + destruct (IH (done ++ [utxo]) totalAmount result) as [Htotal Hcases].
      * intros j Hj. rewrite length_app in Hj. simpl in Hj.
        destruct (Nat.eq_dec j (S (length done))) as [-> | Hne].
        -- rewrite <- Hsplit, Hprefix. exact Hge.
        -- rewrite <- Hsplit. apply Hdone. lia.
      * exact Hrun.
      * rewrite <- Hsplit in Hcases. split; [exact Htotal |].
        destruct Hcases as [(k & Hk & Hres & Hreach & Hmin) | Hall].
        -- left. exists k. rewrite length_app in Hk. simpl in Hk.
           repeat split; try assumption; lia.
        -- right. exact Hall.
Qed.

(** The decision taken after the loop, from an empty [result]. *)
Lemma getUtxos_loop_from_start (amount : float) (available : list UTXO) :
  PrimFloat.ltb 0 amount = true ->
  forall totalAmount result,
    getUtxos_loop amount available 0 [] = (totalAmount, result) ->
    let returned := if Js.ge totalAmount amount then result else [] in
    ((exists k, reaches amount (firstn k available) = true) ->
     exists k, k <= length available /\
               returned = firstn k available /\
               reaches amount returned = true /\
               forall j, j < k -> reaches amount (firstn j available) = false)
    /\ ((forall k, reaches amount (firstn k available) = false) -> returned = []).
Proof.
  intros Hpos totalAmount result Hrun.
  destruct (getUtxos_loop_spec amount available [] totalAmount result) as [Htotal Hcases].
  - simpl. intros j Hj. lia.
  - exact Hrun.
  - simpl in Hcases. subst totalAmount. fold (reaches amount result).
    destruct Hcases as [(k & Hk & -> & Hreach & Hmin) | (-> & Hnone)].
    + rewrite Hreach. split.
      * intros _. exists k. repeat split; try lia; try assumption.
        intros j Hj. destruct j as [| j].
        -- simpl. now apply positive_not_reached_by_nothing.
        -- apply Hmin. lia.
      * intros Hnever. rewrite Hnever in Hreach. discriminate.
    + assert (Hfull : forall k, reaches amount (firstn k available) = false).
      { intros k. destruct k as [| k].
        - simpl. now apply positive_not_reached_by_nothing.
        - destruct (Nat.le_gt_cases (S k) (length available)) as [Hle | Hgt].
          + apply Hnone. lia.
          + rewrite firstn_all2 by lia.
            destruct available as [| u l]; [now apply positive_not_reached_by_nothing |].
            rewrite <- (firstn_all (u :: l)). apply Hnone. simpl. lia. }
      split.
      * intros [k Hk]. rewrite Hfull in Hk. discriminate.
      * intros _. destruct (reaches amount available) eqn:Hall; [| reflexivity].
        rewrite <- (firstn_all available) in Hall. rewrite Hfull in Hall. discriminate.
Qed.


(** ** Steps of an asynchronous method *)

Ltac run_async :=
  unfold bind, await, write, ret, throw, try_catch; simpl.

Section AdapterProperties.

Context {Node : Type}.
Variable rpc : Rpc.Client Node.
Variable buffer : BufferApi.

(** *** [getUtxos] *)

Lemma getUtxos_absent_amount (self : BitcoinCoreWallet) (address : string)
  (w : World Node) (utxos : list Rpc.Unspent) (n' : Node) :
  Rpc.listUnspent rpc (client self) 0 9999999 [address] (node w) = (Return utxos, n') ->
  getUtxos rpc self address None w
  = (Return (map toUTXO utxos), {| node := n'; console := console w |}).
Proof.
  intros Hrpc. unfold getUtxos. run_async. rewrite Hrpc. reflexivity.
Qed.

Lemma getUtxos_falsy_amount (self : BitcoinCoreWallet) (address : string)
  (amount : float) (w : World Node) :
  Js.truthy amount = false ->
  getUtxos rpc self address (Some amount) w = getUtxos rpc self address None w.
Proof.
  intros Hfalsy. unfold getUtxos, bind. 
  destruct (await _ w) as [[utxos | e] w']; [| reflexivity].
  rewrite Hfalsy. reflexivity.
Qed.

(** C1. With a positive target, [getUtxos] answers with the shortest prefix
    of the listed outputs (in listing order, values converted to satoshis)
    whose cumulative value reaches the target, whenever some prefix does;
    when no prefix does, up to and including the full list, it answers with
    the empty sequence, and it never answers with the empty sequence when
    the full list reaches the target. Where a target once reached stays
    reached as outputs are added (the values of outputs are not negative),
    a full list below the target is answered with the empty sequence. *)
Theorem getUtxos_shortest_covering_prefix (self : BitcoinCoreWallet) (address : string)
  (amount : float) (w : World Node) (utxos : list Rpc.Unspent) (n' : Node) :
  PrimFloat.ltb 0 amount = true ->
  Rpc.listUnspent rpc (client self) 0 9999999 [address] (node w) = (Return utxos, n') ->
  exists result,
    getUtxos rpc self address (Some amount) w
    = (Return result, {| node := n'; console := console w |}) /\
    ((exists k, reaches amount (firstn k (map toUTXO utxos)) = true) ->
     exists k, k <= length (map toUTXO utxos) /\
               result = firstn k (map toUTXO utxos) /\
               reaches amount result = true /\
               forall j, j < k -> reaches amount (firstn j (map toUTXO utxos)) = false) /\
    ((forall k, reaches amount (firstn k (map toUTXO utxos)) = false) -> result = []) /\
    (result = [] -> reaches amount (map toUTXO utxos) = false) /\
    ((forall k, reaches amount (firstn k (map toUTXO utxos)) = true ->
                reaches amount (map toUTXO utxos) = true) ->
     reaches amount (map toUTXO utxos) = false -> result = []).
Proof.
  intros Hpos Hrpc.
  destruct (getUtxos_loop amount (map toUTXO utxos) 0 []) as [totalAmount result] eqn:Hrun.
  exists (if Js.ge totalAmount amount then result else []).
  destruct (getUtxos_loop_from_start amount (map toUTXO utxos) Hpos totalAmount result Hrun)
    as [Hsome Hnone].
  split; [| split; [exact Hsome | split; [exact Hnone | split]]].
  - unfold getUtxos. run_async. rewrite Hrpc.
    rewrite (positive_truthy amount Hpos), Hrun. reflexivity.
  - intros Hempty.
    destruct (reaches amount (map toUTXO utxos)) eqn:Hfull; [| reflexivity].
    destruct Hsome as (k & _ & _ & Hreach & _).
    + exists (length (map toUTXO utxos)). rewrite firstn_all. exact Hfull.
    + rewrite Hempty in Hreach.
      rewrite (positive_not_reached_by_nothing amount Hpos) in Hreach. discriminate.
  - intros Hkept Hbelow. apply Hnone. intros k.
    destruct (reaches amount (firstn k (map toUTXO utxos))) eqn:Hk; [| reflexivity].
    apply Hkept in Hk. congruence.
Qed.

(** C6. Without a target amount, [getUtxos] answers with every output that
    [listUnspent(0, 9999999, [address])] lists, in the same order, each with
    its amount in whole coins multiplied by [1e8]; an amount of 0.0005
    becomes 50000. *)
Theorem getUtxos_without_amount_lists_all (self : BitcoinCoreWallet) (address : string)
  (w : World Node) (utxos : list Rpc.Unspent) (n' : Node) :
  Rpc.listUnspent rpc (client self) 0 9999999 [address] (node w) = (Return utxos, n') ->
  exists result,
    getUtxos rpc self address None w = (Return result, {| node := n'; console := console w |}) /\
    length result = length utxos /\
    (forall i utxo, nth_error utxos i = Some utxo ->
       nth_error result i
       = Some {| txid := Rpc.txid utxo;
                 vout := Rpc.vout utxo;
                 value := (Rpc.amount utxo * 1e8)%float;
                 scriptPubKey := Rpc.scriptPubKey utxo |}) /\
    (forall id index script,
       value (toUTXO {| Rpc.txid := id; Rpc.vout := index;
                        Rpc.amount := Sample.btc_0_0005; Rpc.scriptPubKey := script |})
       = 50000%float).
Proof.
  intros Hrpc. exists (map toUTXO utxos). split; [| split; [| split]].
  - now apply getUtxos_absent_amount.
  - apply length_map.
  - intros i utxo Hi. rewrite nth_error_map, Hi. reflexivity.
  - intros id index script. vm_compute. reflexivity.
Qed.

(** C9. A target amount of [0] is falsy, so [getUtxos(address, 0)] behaves
    as [getUtxos(address)]: it answers with the full converted listing, not
    with the empty prefix. *)
Theorem getUtxos_zero_amount_is_absent_amount (self : BitcoinCoreWallet) (address : string)
  (w : World Node) (utxos : list Rpc.Unspent) (n' : Node) :
  Rpc.listUnspent rpc (client self) 0 9999999 [address] (node w) = (Return utxos, n') ->
  getUtxos rpc self address (Some 0%float) w = getUtxos rpc self address None w /\
  getUtxos rpc self address (Some 0%float) w
  = (Return (map toUTXO utxos), {| node := n'; console := console w |}) /\
  (utxos <> [] -> fst (getUtxos rpc self address (Some 0%float) w) <> Return []).
Proof.
  intros Hrpc.
  assert (Hzero : getUtxos rpc self address (Some 0%float) w = getUtxos rpc self address None w)
    by (apply getUtxos_falsy_amount; reflexivity).
  split; [exact Hzero |]. rewrite Hzero, (getUtxos_absent_amount _ _ _ _ _ Hrpc).
  split; [reflexivity |].
  intros Hne Heq. simpl in Heq. injection Heq as Heq.
  destruct utxos; [congruence | discriminate].
Qed.

(** *** [connectWallet] *)

(** C7. [connectWallet] hands back what [getWalletInfo] answered, logged on
    the console, and not the instance it was called on; when the call is
    rejected it throws an error whose message starts with
    [Failed to connect to Bitcoin Core: ]. *)
Theorem connectWallet_resolves_to_wallet_info (self : BitcoinCoreWallet) (w : World Node) :
  match Rpc.getWalletInfo rpc (client self) (node w) with
  | (Return walletInfo, n') =>
      connectWallet rpc self w
      = (Return (wallet_info walletInfo),
         {| node := n'; console := console w ++ [console_log [WalletInfoObject walletInfo]] |})
      /\ fst (connectWallet rpc self w) <> Return (this_instance self)
  | (Throw error, n') =>
      connectWallet rpc self w
      = (Throw {| Js.message := "Failed to connect to Bitcoin Core: " ++ Js.message error |},
         {| node := n'; console := console w |})
  end.
Proof.
  unfold connectWallet. run_async.
  destruct (Rpc.getWalletInfo rpc (client self) (node w)) as [[walletInfo | error] n'].
  - split; [reflexivity | simpl; discriminate].
  - reflexivity.
Qed.

(** *** [getNetwork] *)

(** C10. Whatever was passed to the constructor, [getNetwork] answers
    [Network.RETEST], whose value is ["regtest"]; so does an adapter built
    for ["mainnet"]. *)
Theorem getNetwork_is_always_regtest (walletName host : string) (port : Z)
  (username password network : string) (w : World Node) :
  getNetwork (constructor walletName host port username password network) w = (Return RETEST, w) /\
  getNetwork (initBitcoinCoreWallet walletName host port username password "mainnet") w
  = (Return RETEST, w) /\
  Network_value RETEST = "regtest" /\
  Rpc.network (client (constructor walletName host port username password network)) = network.
Proof.
  repeat split.
Qed.

(** *** [getAddress] *)

(** The listing is not empty and its first entry has an address: that
    address is the answer, whatever its label, and nothing is created. *)
Lemma getAddress_first_listed (self : BitcoinCoreWallet) (w : World Node)
  (first : Rpc.Received) (others : list Rpc.Received) (n' : Node) :
  Rpc.listReceivedByAddress rpc (client self) [] (node w) = (Return (first :: others), n') ->
  Js.truthy_string (Rpc.address first) = true ->
  getAddress rpc self w = (Return (Rpc.address first), {| node := n'; console := console w |}).
Proof.
  intros Hlist Htruthy. unfold getAddress. run_async. rewrite Hlist, Htruthy. reflexivity.
Qed.

(** The listing is empty: a new address is asked for, with the label
    ["primary"] and the type ["bech32"]. *)
Lemma getAddress_creates (self : BitcoinCoreWallet) (w : World Node)
  (n' n'' : Node) (newAddress : string) :
  Rpc.listReceivedByAddress rpc (client self) [] (node w) = (Return [], n') ->
  Rpc.getNewAddress rpc (client self) "primary" "bech32" n' = (Return newAddress, n'') ->
  getAddress rpc self w
  = (Return newAddress,
     {| node := n''; console := console w ++ [console_log [Text "Taproot Address:"; Text newAddress]] |}).
Proof.
  intros Hlist Hnew. unfold getAddress. run_async. rewrite Hlist. simpl. rewrite Hnew. reflexivity.
Qed.

(** Where a second call does give the same address: the listing is not
    empty and asking for it leaves the node as it was. *)
Lemma getAddress_stable_when_listed (self : BitcoinCoreWallet) (w : World Node)
  (first : Rpc.Received) (others : list Rpc.Received) :
  Rpc.listReceivedByAddress rpc (client self) [] (node w) = (Return (first :: others), node w) ->
  Js.truthy_string (Rpc.address first) = true ->
  forall r1 w1 r2 w2,
    getAddress rpc self w = (r1, w1) ->
    getAddress rpc self w1 = (r2, w2) ->
    r1 = Return (Rpc.address first) /\ r2 = r1.
Proof.
  intros Hlist Htruthy r1 w1 r2 w2 H1 H2.
  rewrite (getAddress_first_listed self w first others (node w) Hlist Htruthy) in H1.
  injection H1 as <- <-.
  rewrite (getAddress_first_listed self {| node := node w; console := console w |}
             first others (node w) Hlist Htruthy) in H2.
  injection H2 as <- _. split; reflexivity.
Qed.

(** Where it does not: the listing is empty at both calls, and each call
    answers with whatever address the node creates for it. *)
Lemma getAddress_twice_creates_twice (self : BitcoinCoreWallet) (w : World Node)
  (n1 n2 n3 n4 : Node) (address1 address2 : string) :
  Rpc.listReceivedByAddress rpc (client self) [] (node w) = (Return [], n1) ->
  Rpc.getNewAddress rpc (client self) "primary" "bech32" n1 = (Return address1, n2) ->
  Rpc.listReceivedByAddress rpc (client self) [] n2 = (Return [], n3) ->
  Rpc.getNewAddress rpc (client self) "primary" "bech32" n3 = (Return address2, n4) ->
  forall r1 w1 r2 w2,
    getAddress rpc self w = (r1, w1) ->
    getAddress rpc self w1 = (r2, w2) ->
    r1 = Return address1 /\ r2 = Return address2.
Proof.
  intros Hlist1 Hnew1 Hlist2 Hnew2 r1 w1 r2 w2 H1 H2.
  rewrite (getAddress_creates self w n1 n2 address1 Hlist1 Hnew1) in H1.
  injection H1 as <- <-.
  rewrite (getAddress_creates self
             {| node := n2;
                console := console w ++ [console_log [Text "Taproot Address:"; Text address1]] |}
             n3 n4 address2 Hlist2 Hnew2) in H2.
  injection H2 as <- _. split; reflexivity.
Qed.

(** The sibling [getNewAddress] asks for the listing with
    [(0, true, true, "primary")], which [getAddress] leaves out. *)
Lemma getNewAddress_first_listed (self : BitcoinCoreWallet) (w : World Node)
  (first : Rpc.Received) (others : list Rpc.Received) (n' : Node) :
  Rpc.listReceivedByAddress rpc (client self)
    [Rpc.ANumber 0; Rpc.ABoolean true; Rpc.ABoolean true; Rpc.AString "primary"] (node w)
  = (Return (first :: others), n') ->
  Js.truthy_string (Rpc.address first) = true ->
  getNewAddress rpc self w = (Return (Rpc.address first), {| node := n'; console := console w |}).
Proof.
  intros Hlist Htruthy. unfold getNewAddress. run_async. rewrite Hlist, Htruthy. reflexivity.
Qed.

(** *** [getNetworkFees] *)

(** C5, as the adapter computes it. The estimate for 6 blocks is multiplied
    by [100000000] and divided by [1000] in binary64 arithmetic; the four
    tiers other than [fastestFee] hold that one value and [fastestFee] is
    [1000]. The native rate 0.00001000 gives 1.0000000000000002, the
    binary64 value next above 1. *)
Theorem getNetworkFees_converts_one_estimate (self : BitcoinCoreWallet) (w : World Node)
  (result : Rpc.SmartFee) (n' : Node) :
  Rpc.estimateSmartFee rpc (client self) 6 (node w) = (Return result, n') ->
  let satoshis := (Js.toNumber (Rpc.feerate result) * 100000000 / 1000)%float in
  getNetworkFees rpc self w
  = (Return {| fastestFee := 1000;
               halfHourFee := satoshis;
               hourFee := satoshis;
               economyFee := satoshis;
               minimumFee := satoshis |},
     {| node := n'; console := console w |}) /\
  convertBtcKvBToSatoshiPerByte Sample.rate_0_00001 = 0x1.0000000000001p+0%float.
Proof.
  intros Hrpc satoshis. split.
  - unfold getNetworkFees. run_async. rewrite Hrpc. reflexivity.
  - vm_compute. reflexivity.
Qed.

(** *** [signPsbt] *)

(** One run of [signPsbt], by the answer of the node. *)
Lemma signPsbt_run (self : BitcoinCoreWallet) (psbtHex : string) (w : World Node) :
  signPsbt rpc buffer self psbtHex w
  = match Rpc.walletProcessPsbt rpc (client self) (toBase64 buffer psbtHex) (node w) with
    | (Return signedPsbt, n') =>
        (Return (toHex buffer (Rpc.psbt signedPsbt)),
         {| node := n';
            console := console w
              ++ [console_log [Text "Signing PSBT with hex:"; Text psbtHex];
                  console_log [Text "Signed PSBT:"; ProcessedPsbtObject signedPsbt]]
              ++ (if Rpc.complete signedPsbt then []
                  else [console_error [Text "PSBT signing incomplete"]]) |})
    | (Throw e, n') =>
        (Throw e,
         {| node := n';
            console := console w ++ [console_log [Text "Signing PSBT with hex:"; Text psbtHex]] |})
    end.
Proof.
  unfold signPsbt, toBase64, toHex. run_async.
  destruct (Rpc.walletProcessPsbt rpc (client self) _ (node w)) as [[signedPsbt | e] n'].
  - destruct (Rpc.complete signedPsbt); simpl.
    + rewrite <- app_assoc. reflexivity.
    + rewrite <- !app_assoc. reflexivity.
  - reflexivity.
Qed.

(** C2. When the node answers [complete: false], [signPsbt] throws nothing:
    it writes [PSBT signing incomplete] to the console after its two log
    lines and returns the PSBT of the answer, decoded from base64 and
    encoded as hex. The returned value is computed from the [psbt] field
    alone, so it is what a complete answer with that field would return. *)
Theorem signPsbt_incomplete_is_logged_and_returned (self : BitcoinCoreWallet)
  (psbtHex : string) (w : World Node) (signedPsbt : Rpc.ProcessedPsbt) (n' : Node) :
  Rpc.walletProcessPsbt rpc (client self) (toBase64 buffer psbtHex) (node w) = (Return signedPsbt, n') ->
  Rpc.complete signedPsbt = false ->
  signPsbt rpc buffer self psbtHex w
  = (Return (toHex buffer (Rpc.psbt signedPsbt)),
     {| node := n';
        console := console w
          ++ [console_log [Text "Signing PSBT with hex:"; Text psbtHex];
              console_log [Text "Signed PSBT:"; ProcessedPsbtObject signedPsbt];
              console_error [Text "PSBT signing incomplete"]] |}) /\
  (forall (w2 : World Node) (complete2 : Rpc.ProcessedPsbt) (n2 : Node),
     Rpc.walletProcessPsbt rpc (client self) (toBase64 buffer psbtHex) (node w2) = (Return complete2, n2) ->
     Rpc.complete complete2 = true ->
     Rpc.psbt complete2 = Rpc.psbt signedPsbt ->
     fst (signPsbt rpc buffer self psbtHex w2) = fst (signPsbt rpc buffer self psbtHex w)).
Proof.
  intros Hrpc Hincomplete. split.
  - rewrite signPsbt_run, Hrpc, Hincomplete. reflexivity.
  - intros w2 complete2 n2 Hrpc2 _ Hsame.
    rewrite !signPsbt_run, Hrpc, Hrpc2. simpl. rewrite Hsame. reflexivity.
Qed.

(** *** [signPsbts] *)

Lemma Signed_length (self : BitcoinCoreWallet) (w w' : World Node)
  (psbtsHexes signedPsbts : list string) :
  Signed rpc buffer self w psbtsHexes signedPsbts w' -> length signedPsbts = length psbtsHexes.
Proof.
  induction 1; simpl; congruence.
Qed.

Lemma Signed_nth (self : BitcoinCoreWallet) (w w' : World Node)
  (psbtsHexes signedPsbts : list string) :
  Signed rpc buffer self w psbtsHexes signedPsbts w' ->
  forall i psbtHex,
    nth_error psbtsHexes i = Some psbtHex ->
    exists wi wi' signedPsbt,
      Signed rpc buffer self w (firstn i psbtsHexes) (firstn i signedPsbts) wi /\
      signPsbt rpc buffer self psbtHex wi = (Return signedPsbt, wi') /\
      nth_error signedPsbts i = Some signedPsbt.
Proof.
  induction 1 as [w | w w1 w2 x y xs ys Hx Hrest IH]; intros i psbtHex Hi.
  - destruct i; discriminate.
  - destruct i as [| i]; simpl in Hi.
    + injection Hi as <-. exists w, w1, y. repeat split; [constructor | exact Hx].
    + destruct (IH i psbtHex Hi) as (wi & wi' & s & Hfirst & Hsign & Hnth).
      exists wi, wi', s. repeat split; try assumption.
      simpl. econstructor; eassumption.
Qed.

(** The loop, entered with [signedPsbts] already pushed. *)
Lemma signPsbts_loop_Signed (self : BitcoinCoreWallet) (psbtsHexes : list string) :
  forall (signedPsbts : list string) (w : World Node),
    (forall result w',
        signPsbts_loop rpc buffer self psbtsHexes signedPsbts w = (Return result, w') <->
        exists more, result = signedPsbts ++ more /\ Signed rpc buffer self w psbtsHexes more w').
Proof.
  induction psbtsHexes as [| psbtHex rest IH]; intros signedPsbts w result w'; simpl.
  - unfold ret. split.
    + intros H. injection H as <- <-. exists []. rewrite app_nil_r. split; constructor.
    + intros (more & -> & H). inversion H; subst. rewrite app_nil_r. reflexivity.
  - unfold bind. destruct (signPsbt rpc buffer self psbtHex w) as [[signedPsbt | e] w1] eqn:Hsign.
    + rewrite IH. split.
      * intros (more & -> & H). exists (signedPsbt :: more). rewrite <- app_assoc.
        split; [reflexivity | econstructor; eassumption].
      * intros (more & -> & H). inversion H; subst.
        match goal with
        | Hs : signPsbt _ _ _ _ _ = (Return _, _) |- _ => rewrite Hsign in Hs; injection Hs as <- <-
        end.
        eexists. rewrite <- app_assoc. split; [reflexivity | eassumption].
    + split.
      * discriminate.
      * intros (more & _ & H). inversion H; subst. congruence.
Qed.

Lemma signPsbts_loop_throws (self : BitcoinCoreWallet) (before : list string) :
  forall (signedPsbts signed : list string) (w w1 w2 : World Node)
         (psbtHex : string) (after : list string) (e : Js.Error),
    Signed rpc buffer self w before signed w1 ->
    signPsbt rpc buffer self psbtHex w1 = (Throw e, w2) ->
    signPsbts_loop rpc buffer self (before ++ psbtHex :: after) signedPsbts w = (Throw e, w2).
Proof.
  induction before as [| x before IH]; intros signedPsbts signed w w1 w2 psbtHex after e Hbefore Hthrow.
  - inversion Hbefore; subst. simpl. unfold bind. rewrite Hthrow. reflexivity.
  - inversion Hbefore; subst. simpl. unfold bind.
    match goal with
    | Hs : signPsbt _ _ _ x w = _ |- _ => rewrite Hs
    end.
    eapply IH; eassumption.
Qed.

(** C3. [signPsbts] signs in input order, one PSBT after the other. It
    returns exactly when every PSBT is signed in turn, and then the result
    has the length of the input and its i-th element is what [signPsbt]
    returned for the i-th input, in the world left by the first i. When
    [signPsbt] throws on some element, [signPsbts] throws that error, in
    the world where the earlier elements were signed: the completion holds
    the error and none of the earlier results. *)
Theorem signPsbts_sequential (self : BitcoinCoreWallet) (psbtsHexes : list string)
  (w : World Node) :
  (forall signedPsbts w',
      signPsbts rpc buffer self psbtsHexes w = (Return signedPsbts, w') <->
      Signed rpc buffer self w psbtsHexes signedPsbts w') /\
  (forall signedPsbts w',
      signPsbts rpc buffer self psbtsHexes w = (Return signedPsbts, w') ->
      length signedPsbts = length psbtsHexes /\
      forall i psbtHex,
        nth_error psbtsHexes i = Some psbtHex ->
        exists wi wi' signedPsbt,
          Signed rpc buffer self w (firstn i psbtsHexes) (firstn i signedPsbts) wi /\
          signPsbt rpc buffer self psbtHex wi = (Return signedPsbt, wi') /\
          nth_error signedPsbts i = Some signedPsbt) /\
  (forall before psbtHex after signed w1 e w2,
      psbtsHexes = before ++ psbtHex :: after ->
      Signed rpc buffer self w before signed w1 ->
      signPsbt rpc buffer self psbtHex w1 = (Throw e, w2) ->
      signPsbts rpc buffer self psbtsHexes w = (Throw e, w2)).
Proof.
  assert (Hiff : forall signedPsbts w',
             signPsbts rpc buffer self psbtsHexes w = (Return signedPsbts, w') <->
             Signed rpc buffer self w psbtsHexes signedPsbts w').
  { intros signedPsbts w'. unfold signPsbts. rewrite signPsbts_loop_Signed. split.
    - intros (more & -> & H). exact H.
    - intros H. exists signedPsbts. split; [reflexivity | exact H]. }
  split; [exact Hiff | split].
  - intros signedPsbts w' Hrun. apply Hiff in Hrun. split.
    + eapply Signed_length; eassumption.
    + eapply Signed_nth; eassumption.
  - intros before psbtHex after signed w1 e w2 -> Hbefore Hthrow.
    unfold signPsbts. eapply signPsbts_loop_throws; eassumption.
Qed.

End AdapterProperties.

(** * The adapter on the scripted endpoint *)


(** ** [getUtxos] *)

Example getUtxos_loop_700 :
  Run.select 700 Run.spec_example = [Run.utxo "aa" 0 500; Run.utxo "bb" 0 300].
Proof. vm_compute. reflexivity. Qed.

Example getUtxos_loop_1500 : Run.select 1500 Run.spec_example = [].
Proof. vm_compute. reflexivity. Qed.

Example getUtxos_lists_payee :
  getUtxos TestNode.rpc Sample.wallet Sample.payee None (Sample.world Sample.state)
  = (Return [Run.utxo "aa" 0 50000; Run.utxo "cc" 0 300; Run.utxo "dd" 2 200],
     Sample.world Sample.state).
Proof. vm_compute. reflexivity. Qed.

Example getUtxos_target_50200 :
  getUtxos TestNode.rpc Sample.wallet Sample.payee (Some 50200%float) (Sample.world Sample.state)
  = (Return [Run.utxo "aa" 0 50000; Run.utxo "cc" 0 300], Sample.world Sample.state).
Proof. vm_compute. reflexivity. Qed.

Example getUtxos_target_60000 :
  getUtxos TestNode.rpc Sample.wallet Sample.payee (Some 60000%float) (Sample.world Sample.state)
  = (Return [], Sample.world Sample.state).
Proof. vm_compute. reflexivity. Qed.

Example getUtxos_offline :
  getUtxos TestNode.rpc Sample.wallet Sample.payee None (Sample.world Sample.offline)
  = (Throw TestNode.refused, Sample.world Sample.offline).
Proof. vm_compute. reflexivity. Qed.

Lemma getUtxos_shortest_covering_prefix_witness :
  let available := map toUTXO Run.listed in
  exists result,
    getUtxos TestNode.rpc Sample.wallet Sample.payee (Some 50200%float) (Sample.world Sample.state)
    = (Return result, Sample.world Sample.state) /\
    ((exists k, reaches 50200 (firstn k available) = true) ->
     exists k, k <= length available /\
               result = firstn k available /\
               reaches 50200 result = true /\
               forall j, j < k -> reaches 50200 (firstn j available) = false) /\
    ((forall k, reaches 50200 (firstn k available) = false) -> result = []) /\
    (result = [] -> reaches 50200 available = false) /\
    ((forall k, reaches 50200 (firstn k available) = true -> reaches 50200 available = true) ->
     reaches 50200 available = false -> result = []).
Proof.
  exact (getUtxos_shortest_covering_prefix TestNode.rpc Sample.wallet Sample.payee 50200
           (Sample.world Sample.state) Run.listed Sample.state eq_refl eq_refl).
Defined.

Lemma getUtxos_without_amount_lists_all_witness :
  exists result,
    getUtxos TestNode.rpc Sample.wallet Sample.payee None (Sample.world Sample.state)
    = (Return result, Sample.world Sample.state) /\
    length result = 3.
Proof.
  destruct (getUtxos_without_amount_lists_all TestNode.rpc Sample.wallet Sample.payee
              (Sample.world Sample.state) Run.listed Sample.state eq_refl)
    as (result & Hrun & Hlength & _).
  exists result. split; [exact Hrun | exact Hlength].
Defined.

Lemma getUtxos_zero_amount_is_absent_amount_witness :
  getUtxos TestNode.rpc Sample.wallet Sample.payee (Some 0%float) (Sample.world Sample.state)
  = (Return (map toUTXO Run.listed), Sample.world Sample.state).
Proof.
  exact (proj1 (proj2 (getUtxos_zero_amount_is_absent_amount TestNode.rpc Sample.wallet
                         Sample.payee (Sample.world Sample.state) Run.listed Sample.state
                         eq_refl))).
Defined.

Example getUtxos_negative_zero_and_nan :
  getUtxos TestNode.rpc Sample.wallet Sample.payee (Some (-0)%float) (Sample.world Sample.state)
  = getUtxos TestNode.rpc Sample.wallet Sample.payee None (Sample.world Sample.state) /\
  getUtxos TestNode.rpc Sample.wallet Sample.payee (Some PrimFloat.nan) (Sample.world Sample.state)
  = getUtxos TestNode.rpc Sample.wallet Sample.payee None (Sample.world Sample.state).
Proof. split; vm_compute; reflexivity. Qed.

(** ** [signPsbt] and [signPsbts] *)

Example signPsbt_partly_signed :
  signPsbt TestNode.rpc NodeBuffer.api Sample.wallet Sample.unsigned_psbt (Sample.world Sample.state)
  = (Return "70736274ff0101",
     {| node := Sample.state;
        console := [console_log [Text "Signing PSBT with hex:"; Text "70736274ff0100"];
                    console_log [Text "Signed PSBT:"; ProcessedPsbtObject Sample.partly_signed];
                    console_error [Text "PSBT signing incomplete"]] |}).
Proof. vm_compute. reflexivity. Qed.

Example signPsbt_fully_signed :
  signPsbt TestNode.rpc NodeBuffer.api Sample.wallet "70736274ff0103" (Sample.world Sample.state)
  = (Return "70736274ff0102",
     {| node := Sample.state;
        console := [console_log [Text "Signing PSBT with hex:"; Text "70736274ff0103"];
                    console_log [Text "Signed PSBT:"; ProcessedPsbtObject Sample.fully_signed]] |}).
Proof. vm_compute. reflexivity. Qed.

Example signPsbt_rejected :
  signPsbt TestNode.rpc NodeBuffer.api Sample.wallet "70736274ff0105" (Sample.world Sample.state)
  = (Throw {| Js.message := "TX decode failed" |},
     {| node := Sample.state;
        console := [console_log [Text "Signing PSBT with hex:"; Text "70736274ff0105"]] |}).
Proof. vm_compute. reflexivity. Qed.

Lemma signPsbt_incomplete_is_logged_and_returned_witness :
  signPsbt TestNode.rpc NodeBuffer.api Sample.wallet Sample.unsigned_psbt (Sample.world Sample.state)
  = (Return (toHex NodeBuffer.api (Rpc.psbt Sample.partly_signed)),
     {| node := Sample.state;
        console := [console_log [Text "Signing PSBT with hex:"; Text Sample.unsigned_psbt];
                    console_log [Text "Signed PSBT:"; ProcessedPsbtObject Sample.partly_signed];
                    console_error [Text "PSBT signing incomplete"]] |}).
Proof.
  exact (proj1 (signPsbt_incomplete_is_logged_and_returned TestNode.rpc NodeBuffer.api
                  Sample.wallet Sample.unsigned_psbt (Sample.world Sample.state)
                  Sample.partly_signed Sample.state eq_refl eq_refl)).
Defined.

Example signPsbts_two :
  fst (signPsbts TestNode.rpc NodeBuffer.api Sample.wallet
         [Sample.unsigned_psbt; "70736274ff0103"] (Sample.world Sample.state))
  = Return ["70736274ff0101"; "70736274ff0102"].
Proof. vm_compute. reflexivity. Qed.

Example signPsbts_second_rejected :
  signPsbts TestNode.rpc NodeBuffer.api Sample.wallet
    [Sample.unsigned_psbt; "70736274ff0105"; "70736274ff0103"] (Sample.world Sample.state)
  = (Throw {| Js.message := "TX decode failed" |},
     {| node := Sample.state;
        console := [console_log [Text "Signing PSBT with hex:"; Text "70736274ff0100"];
                    console_log [Text "Signed PSBT:"; ProcessedPsbtObject Sample.partly_signed];
                    console_error [Text "PSBT signing incomplete"];
                    console_log [Text "Signing PSBT with hex:"; Text "70736274ff0105"]] |}).
Proof. vm_compute. reflexivity. Qed.

Lemma signPsbts_sequential_witness :
  (exists signedPsbts w',
      signPsbts TestNode.rpc NodeBuffer.api Sample.wallet
        [Sample.unsigned_psbt; "70736274ff0103"] (Sample.world Sample.state)
      = (Return signedPsbts, w') /\
      length signedPsbts = 2) /\
  fst (signPsbts TestNode.rpc NodeBuffer.api Sample.wallet
         [Sample.unsigned_psbt; "70736274ff0105"; "70736274ff0103"] (Sample.world Sample.state))
  = Throw {| Js.message := "TX decode failed" |}.
Proof.
  split.
  - eexists. eexists. split.
    + reflexivity.
    + exact (proj1 (proj1 (proj2 (signPsbts_sequential TestNode.rpc NodeBuffer.api Sample.wallet
                                    [Sample.unsigned_psbt; "70736274ff0103"]
                                    (Sample.world Sample.state))) _ _ eq_refl)).
  - assert (Hbefore : Signed TestNode.rpc NodeBuffer.api Sample.wallet (Sample.world Sample.state)
                        [Sample.unsigned_psbt] ["70736274ff0101"]
                        (snd (signPsbt TestNode.rpc NodeBuffer.api Sample.wallet
                                Sample.unsigned_psbt (Sample.world Sample.state)))).
    { econstructor; [reflexivity | constructor]. }
    rewrite (proj2 (proj2 (signPsbts_sequential TestNode.rpc NodeBuffer.api Sample.wallet
                             [Sample.unsigned_psbt; "70736274ff0105"; "70736274ff0103"]
                             (Sample.world Sample.state)))
               [Sample.unsigned_psbt] "70736274ff0105" ["70736274ff0103"]
               ["70736274ff0101"] _ {| Js.message := "TX decode failed" |}
               (snd (signPsbt TestNode.rpc NodeBuffer.api Sample.wallet "70736274ff0105"
                       (snd (signPsbt TestNode.rpc NodeBuffer.api Sample.wallet
                               Sample.unsigned_psbt (Sample.world Sample.state)))))
               eq_refl Hbefore eq_refl).
    reflexivity.
Defined.

(** ** [getNetworkFees] *)

Example getNetworkFees_sample :
  getNetworkFees TestNode.rpc Sample.wallet (Sample.world Sample.state)
  = (Return {| fastestFee := 1000;
               halfHourFee := 0x1.0000000000001p+0;
               hourFee := 0x1.0000000000001p+0;
               economyFee := 0x1.0000000000001p+0;
               minimumFee := 0x1.0000000000001p+0 |},
     Sample.world Sample.state).
Proof. vm_compute. reflexivity. Qed.

(** C5, as stated, at the native rate 0.00001000: it is converted to a
    value above 1.0, not to 1.0. The
    product by [100000000] is rounded up to [1000.0000000000001], and so is
    the quotient by [1000]. *)
Lemma getNetworkFees_rate_0_00001_above_1 :
  (Sample.rate_0_00001 * 100000000)%float = 0x1.f400000000001p+9%float /\
  convertBtcKvBToSatoshiPerByte Sample.rate_0_00001 = 0x1.0000000000001p+0%float /\
  PrimFloat.eqb (convertBtcKvBToSatoshiPerByte Sample.rate_0_00001) 1 = false /\
  PrimFloat.ltb 1 (convertBtcKvBToSatoshiPerByte Sample.rate_0_00001) = true /\
  PrimFloat.eqb
    (halfHourFee
       match fst (getNetworkFees TestNode.rpc Sample.wallet (Sample.world Sample.state)) with
       | Return fees => fees
       | Throw _ => Build_Fees 1 1 1 1 1
       end) 1 = false.
Proof. repeat split; vm_compute; reflexivity. Qed.

Lemma getNetworkFees_converts_one_estimate_witness :
  getNetworkFees TestNode.rpc Sample.wallet (Sample.world Sample.state)
  = (Return {| fastestFee := 1000;
               halfHourFee := (Sample.rate_0_00001 * 100000000 / 1000)%float;
               hourFee := (Sample.rate_0_00001 * 100000000 / 1000)%float;
               economyFee := (Sample.rate_0_00001 * 100000000 / 1000)%float;
               minimumFee := (Sample.rate_0_00001 * 100000000 / 1000)%float |},
     Sample.world Sample.state).
Proof.
  exact (proj1 (getNetworkFees_converts_one_estimate TestNode.rpc Sample.wallet
                  (Sample.world Sample.state) (TestNode.estimate Sample.state) Sample.state
                  eq_refl)).
Defined.

Example getNetworkFees_without_estimate :
  convertBtcKvBToSatoshiPerByte (Js.toNumber None) = PrimFloat.nan.
Proof. vm_compute. reflexivity. Qed.

(** ** [connectWallet] *)

Example connectWallet_online :
  connectWallet TestNode.rpc Sample.wallet (Sample.world Sample.state)
  = (Return (wallet_info {| Rpc.walletname := "staker"; Rpc.txcount := 3 |}),
     {| node := Sample.state;
        console := [console_log [WalletInfoObject {| Rpc.walletname := "staker"; Rpc.txcount := 3 |}]] |}).
Proof. vm_compute. reflexivity. Qed.

Example connectWallet_offline :
  connectWallet TestNode.rpc Sample.wallet (Sample.world Sample.offline)
  = (Throw {| Js.message := "Failed to connect to Bitcoin Core: connect ECONNREFUSED 127.0.0.1:18443" |},
     Sample.world Sample.offline).
Proof. vm_compute. reflexivity. Qed.

(** ** [getAddress] *)

(** C4, on a wallet where ["bcrt1qsavings"] (label ["savings"]) and
    ["bcrt1qprimary"] (label ["primary"]) have both received funds:
    [getAddress] answers with the first listed address, which does not carry
    the label, and creates nothing. *)
Theorem getAddress_answers_first_listed_address :
  getAddress TestNode.rpc Sample.wallet (Sample.world Sample.state)
  = (Return "bcrt1qsavings", Sample.world Sample.state) /\
  TestNode.addressBook Sample.state
  = [ {| Rpc.address := "bcrt1qsavings"; Rpc.label := "savings"; Rpc.received := 1 |};
      {| Rpc.address := "bcrt1qprimary"; Rpc.label := "primary"; Rpc.received := 2 |} ] /\
  fst (getNewAddress TestNode.rpc Sample.wallet (Sample.world Sample.state))
  = Return "bcrt1qprimary".
Proof. repeat split; vm_compute; reflexivity. Qed.

(** C8, on a wallet that has received nothing: two calls of [getAddress]
    in a row, with nothing received in between, answer with two different
    addresses, each newly created. *)
Theorem getAddress_twice_on_unfunded_wallet :
  let first := getAddress TestNode.rpc Sample.wallet (Sample.world Sample.unfunded) in
  let second := getAddress TestNode.rpc Sample.wallet (snd first) in
  fst first = Return "bcrt1qfresh0" /\
  fst second = Return "bcrt1qfresh1" /\
  filter TestNode.funded (TestNode.addressBook (node (snd second))) = [] /\
  TestNode.coins (node (snd second)) = [] /\
  map Rpc.label (TestNode.addressBook (node (snd second))) = ["primary"; "primary"].
Proof. repeat split; vm_compute; reflexivity. Qed.

Example getAddress_twice_on_funded_wallet :
  let first := getAddress TestNode.rpc Sample.wallet (Sample.world Sample.state) in
  let second := getAddress TestNode.rpc Sample.wallet (snd first) in
  fst first = Return "bcrt1qsavings" /\ fst second = fst first.
Proof. repeat split; vm_compute; reflexivity. Qed.

(** * Further properties of the adapter *)

(** ** Numbers that are not numbers, and the order of numbers *)

Lemma is_nan_Prim2SF (x : float) :
  PrimFloat.is_nan x = true <-> Prim2SF x = S754_nan.
Proof.
  unfold PrimFloat.is_nan. rewrite FloatAxioms.eqb_spec. split.
  - destruct (Prim2SF x) as [s | s | | s m e]; try destruct s;
      cbv [SFeqb SFcompare]; try discriminate; try reflexivity.
    all: rewrite Z.compare_refl;
      change (PosDef.Pos.compare_cont Eq m m) with (Pos.compare m m);
      rewrite Pos.compare_refl; discriminate.
  - intros ->. reflexivity.
Qed.

Lemma add_nan_l (x y : float) :
  PrimFloat.is_nan x = true -> PrimFloat.is_nan (x + y) = true.
Proof.
  rewrite !is_nan_Prim2SF, add_spec. intros ->. reflexivity.
Qed.

Lemma add_nan_r (x y : float) :
  PrimFloat.is_nan y = true -> PrimFloat.is_nan (x + y) = true.
Proof.
  rewrite !is_nan_Prim2SF, add_spec. intros ->.
  unfold SF64add, SFadd. destruct (Prim2SF x); reflexivity.
Qed.

Lemma mul_nan_l (x y : float) :
  PrimFloat.is_nan x = true -> PrimFloat.is_nan (x * y) = true.
Proof.
  rewrite !is_nan_Prim2SF, mul_spec. intros ->. reflexivity.
Qed.

Lemma ge_nan_l (x amount : float) :
  PrimFloat.is_nan x = true -> Js.ge x amount = false.
Proof.
  unfold Js.ge. rewrite is_nan_Prim2SF, leb_spec. intros ->.
  unfold SFleb, SFcompare. destruct (Prim2SF amount); reflexivity.
Qed.

Lemma SFleb_trans (a b c : spec_float) :
  SFleb a b = true -> SFleb b c = true -> SFleb a c = true.
Proof.
  unfold SFleb, SFcompare.
  destruct a as [sa | sa | | sa ma ea], b as [sb | sb | | sb mb eb], c as [sc | sc | | sc mc ec];
    try destruct sa; try destruct sb; try destruct sc; try congruence; try reflexivity.
  all: change (PosDef.Pos.compare_cont Eq ?p ?q) with (Pos.compare p q).
  all: destruct (Z.compare_spec ea eb), (Z.compare_spec eb ec), (Z.compare_spec ea ec);
    try lia; try congruence; try reflexivity; subst.
  all: destruct (Pos.compare_spec ma mb), (Pos.compare_spec mb mc), (Pos.compare_spec ma mc);
    simpl; try lia; try congruence; try reflexivity.
Qed.

Lemma ge_trans (total larger smaller : float) :
  Js.ge total larger = true -> Js.ge larger smaller = true -> Js.ge total smaller = true.
Proof.
  unfold Js.ge. rewrite !leb_spec. intros H1 H2. eapply SFleb_trans; eassumption.
Qed.

(** ** The selection of [getUtxos], for any target that is truthy *)

Lemma cumulative_from_nan (utxos : list UTXO) :
  forall total,
    PrimFloat.is_nan total = true ->
    PrimFloat.is_nan (fold_left (fun total utxo => (total + value utxo)%float) utxos total) = true.
Proof.
  induction utxos as [| utxo rest IH]; intros total Hnan; simpl.
  - exact Hnan.
  - apply IH. now apply add_nan_l.
Qed.

Lemma cumulative_nan (before after : list UTXO) (utxo : UTXO) :
  PrimFloat.is_nan (value utxo) = true ->
  PrimFloat.is_nan (cumulative (before ++ utxo :: after)) = true.
Proof.
  intros Hnan. unfold cumulative. rewrite fold_left_app. simpl.
  apply cumulative_from_nan. now apply add_nan_r.
Qed.

(** What is returned for a truthy target: a prefix that is empty or the
    shortest non-empty one that reaches the target. *)
Lemma select_spec (amount : float) (available : list UTXO) :
  exists k,
    k <= length available /\
    Run.select amount available = firstn k available /\
    (0 < k -> reaches amount (firstn k available) = true) /\
    (forall j, 0 < j < k -> reaches amount (firstn j available) = false) /\
    (k = 0 -> forall j, 0 < j <= length available ->
                        reaches amount (firstn j available) = false).
Proof.
  unfold Run.select.
  destruct (getUtxos_loop amount available 0 []) as [totalAmount result] eqn:Hrun.
  destruct (getUtxos_loop_spec amount available [] totalAmount result) as [-> Hcases].
  - simpl. intros j Hj. lia.
  - exact Hrun.
  - simpl in Hcases. fold (reaches amount result).
    destruct Hcases as [(k & Hk & -> & Hreach & Hmin) | (-> & Hnone)].
    + exists k. rewrite Hreach. repeat split; try lia; try assumption.
    + exists 0. simpl. repeat split; try lia.
      * destruct available as [| u l]; [now destruct (reaches amount []) |].
        rewrite <- (firstn_all (u :: l)) at 1. rewrite Hnone by (simpl; lia). reflexivity.
      * intros _. exact Hnone.
Qed.

Section GetUtxosFurther.

Context {Node : Type}.
Variable rpc : Rpc.Client Node.

Lemma getUtxos_truthy_amount (self : BitcoinCoreWallet) (address : string) (amount : float)
  (w : World Node) (utxos : list Rpc.Unspent) (n' : Node) :
  Js.truthy amount = true ->
  Rpc.listUnspent rpc (client self) 0 9999999 [address] (node w) = (Return utxos, n') ->
  getUtxos rpc self address (Some amount) w
  = (Return (Run.select amount (map toUTXO utxos)), {| node := n'; console := console w |}).
Proof.
  intros Htruthy Hrpc. unfold getUtxos, Run.select. run_async. rewrite Hrpc, Htruthy.
  destruct (getUtxos_loop amount (map toUTXO utxos) 0 []). reflexivity.
Qed.


(** X2. [getUtxos] is rejected exactly when [listUnspent] is, with the
    same error, whatever the target: a target that cannot be covered is
    answered with the empty sequence, never with an error. *)
Theorem getUtxos_rejected_iff_listing_rejected (self : BitcoinCoreWallet) (address : string)
  (amount : option float) (w : World Node) (e : Js.Error) :
  fst (getUtxos rpc self address amount w) = Throw e <->
  fst (Rpc.listUnspent rpc (client self) 0 9999999 [address] (node w)) = Throw e.
Proof.
  unfold getUtxos. run_async.
  destruct (Rpc.listUnspent rpc (client self) 0 9999999 [address] (node w)) as [[utxos | e'] n'];
    simpl; [| split; intros H; inversion H; reflexivity].
  destruct amount as [amount |]; [| split; discriminate].
  destruct (Js.truthy amount); [| split; discriminate].
  destruct (getUtxos_loop amount (map toUTXO utxos) 0 []). split; discriminate.
Qed.

(** X3. One listed output whose amount is not a number, met before the
    target is reached, makes [getUtxos] answer with the empty sequence:
    from that output on every running total is [NaN]. *)
Theorem getUtxos_nan_amount_gives_nothing (self : BitcoinCoreWallet) (address : string)
  (amount : float) (w : World Node) (utxos : list Rpc.Unspent) (n' : Node)
  (i : nat) (utxo : Rpc.Unspent) :
  Js.truthy amount = true ->
  Rpc.listUnspent rpc (client self) 0 9999999 [address] (node w) = (Return utxos, n') ->
  nth_error utxos i = Some utxo ->
  PrimFloat.is_nan (Rpc.amount utxo) = true ->
  (forall j, 0 < j <= i -> reaches amount (firstn j (map toUTXO utxos)) = false) ->
  getUtxos rpc self address (Some amount) w = (Return [], {| node := n'; console := console w |}).
Proof.
  intros Htruthy Hrpc Hnth Hnan Hbefore.
  destruct (select_spec amount (map toUTXO utxos)) as (k & Hk & Hsel & Hreach & _ & _).
  rewrite length_map in Hk.
  rewrite (getUtxos_truthy_amount _ _ _ _ _ _ Htruthy Hrpc), Hsel.
  destruct k as [| k]; [reflexivity | exfalso].
  assert (Hk' : reaches amount (firstn (S k) (map toUTXO utxos)) = true) by (apply Hreach; lia).
  destruct (Nat.le_gt_cases (S k) i) as [Hle | Hgt].
  - rewrite Hbefore in Hk' by lia. discriminate.
  - destruct (nth_error_split utxos i Hnth) as (before & after & -> & Hlen).
    rewrite map_app, map_cons, firstn_app, length_map, Hlen in Hk'.
    rewrite firstn_all2 in Hk' by (rewrite length_map; lia).
    replace (S k - i) with (S (k - i)) in Hk' by lia. rewrite firstn_cons in Hk'.
    unfold reaches in Hk'. rewrite ge_nan_l in Hk'; [discriminate |].
    apply cumulative_nan. simpl. now apply mul_nan_l.
Qed.

(** X4. A smaller target never needs more outputs: when the answer for a
    target is not empty, the answer for any smaller truthy target, on the
    same listing, is a non-empty prefix of it. *)
Theorem getUtxos_smaller_target_prefix (self : BitcoinCoreWallet) (address : string)
  (smaller larger : float) (w : World Node) (utxos : list Rpc.Unspent) (n' : Node) :
  Js.truthy smaller = true ->
  Js.truthy larger = true ->
  Js.ge larger smaller = true ->
  Rpc.listUnspent rpc (client self) 0 9999999 [address] (node w) = (Return utxos, n') ->
  exists for_smaller for_larger,
    getUtxos rpc self address (Some smaller) w
    = (Return for_smaller, {| node := n'; console := console w |}) /\
    getUtxos rpc self address (Some larger) w
    = (Return for_larger, {| node := n'; console := console w |}) /\
    (for_larger <> [] ->
     for_smaller <> [] /\ exists k, k <= length for_larger /\ for_smaller = firstn k for_larger).
Proof.
  intros Hs Hl Hge Hrpc.
  destruct (select_spec smaller (map toUTXO utxos))
    as (k1 & Hk1 & Hsel1 & Hreach1 & Hmin1 & Hnone1).
  destruct (select_spec larger (map toUTXO utxos)) as (k2 & Hk2 & Hsel2 & Hreach2 & _ & _).
  rewrite length_map in Hk1, Hk2, Hnone1.
  exists (firstn k1 (map toUTXO utxos)), (firstn k2 (map toUTXO utxos)).
  rewrite (getUtxos_truthy_amount _ _ _ _ _ _ Hs Hrpc), Hsel1.
  rewrite (getUtxos_truthy_amount _ _ _ _ _ _ Hl Hrpc), Hsel2.
  split; [reflexivity | split; [reflexivity |]].
  intros Hnonempty.
  assert (Hk2pos : 0 < k2) by (destruct k2; [now elim Hnonempty | lia]).
  assert (Hcovers : reaches smaller (firstn k2 (map toUTXO utxos)) = true).
  { unfold reaches. eapply ge_trans; [| exact Hge]. apply Hreach2. exact Hk2pos. }
  assert (Hk1pos : 0 < k1).
  { destruct k1 as [| k1]; [| lia].
    rewrite Hnone1 in Hcovers by lia. discriminate. }
  assert (Hle : k1 <= k2).
  { destruct (Nat.le_gt_cases k1 k2) as [Hle | Hgt]; [exact Hle |].
    rewrite Hmin1 in Hcovers by lia. discriminate. }
  split.
  - destruct utxos as [| u l]; [simpl in Hk1; lia |].
    destruct k1; [lia | discriminate].
  - exists k1. split.
    + rewrite length_firstn, length_map. lia.
    + rewrite firstn_firstn. replace (Init.Nat.min k1 k2) with k1 by lia. reflexivity.
Qed.

(** X5. When the node has no estimate (its answer has no [feerate]),
    [getNetworkFees] does not throw: it answers with [fastestFee] 1000 and
    [NaN] in the four other tiers. *)
Theorem getNetworkFees_without_estimate_is_nan (self : BitcoinCoreWallet) (w : World Node)
  (result : Rpc.SmartFee) (n' : Node) :
  Rpc.estimateSmartFee rpc (client self) 6 (node w) = (Return result, n') ->
  Rpc.feerate result = None ->
  getNetworkFees rpc self w
  = (Return {| fastestFee := 1000;
               halfHourFee := PrimFloat.nan;
               hourFee := PrimFloat.nan;
               economyFee := PrimFloat.nan;
               minimumFee := PrimFloat.nan |},
     {| node := n'; console := console w |}).
Proof.
  intros Hrpc Hnone. unfold getNetworkFees. run_async. rewrite Hrpc, Hnone. reflexivity.
Qed.

End GetUtxosFurther.

(** ** [getAddress], [signPsbts]: failures and composition *)

Section AddressAndSigningFurther.

Context {Node : Type}.
Variable rpc : Rpc.Client Node.
Variable buffer : BufferApi.

(** When the first listed entry has an empty address, [getAddress]
    creates a new address, whatever the entries after it hold. *)
Theorem getAddress_empty_first_address_creates (self : BitcoinCoreWallet) (w : World Node)
  (first : Rpc.Received) (others : list Rpc.Received) (n' n'' : Node) (newAddress : string) :
  Rpc.listReceivedByAddress rpc (client self) [] (node w) = (Return (first :: others), n') ->
  Rpc.address first = EmptyString ->
  Rpc.getNewAddress rpc (client self) "primary" "bech32" n' = (Return newAddress, n'') ->
  getAddress rpc self w
  = (Return newAddress,
     {| node := n''; console := console w ++ [console_log [Text "Taproot Address:"; Text newAddress]] |}).
Proof.
  intros Hlist Hempty Hnew. unfold getAddress. run_async.
  rewrite Hlist, Hempty. simpl. rewrite Hnew. reflexivity.
Qed.

(** X6. [getAddress] is rejected with an error exactly when the listing
    call is rejected with it, or when the listing gives no usable first
    address and the call that creates an address is rejected with it. A
    listing with a usable first address is never followed by an error. *)
Theorem getAddress_rejected_iff (self : BitcoinCoreWallet) (w : World Node) (e : Js.Error) :
  fst (getAddress rpc self w) = Throw e <->
  match Rpc.listReceivedByAddress rpc (client self) [] (node w) with
  | (Throw e', _) => e' = e
  | (Return [], n') =>
      fst (Rpc.getNewAddress rpc (client self) "primary" "bech32" n') = Throw e
  | (Return (first :: _), n') =>
      Js.truthy_string (Rpc.address first) = false /\
      fst (Rpc.getNewAddress rpc (client self) "primary" "bech32" n') = Throw e
  end.
Proof.
  unfold getAddress. run_async.
  destruct (Rpc.listReceivedByAddress rpc (client self) [] (node w)) as [[addresses | e'] n'];
    simpl.
  - destruct addresses as [| first others]; cbn.
    + destruct (Rpc.getNewAddress rpc (client self) "primary" "bech32" n') as [[a | e''] n''];
        cbn; split; intros H; try discriminate; inversion H; reflexivity.
    + destruct (Js.truthy_string (Rpc.address first)); cbn.
      * split; [discriminate | intros [H _]; discriminate].
      * destruct (Rpc.getNewAddress rpc (client self) "primary" "bech32" n') as [[a | e''] n''];
          cbn; split.
        -- discriminate.
        -- intros [_ H]; discriminate.
        -- intros H; inversion H; split; reflexivity.
        -- intros [_ H]; inversion H; reflexivity.
  - split; intros H; inversion H; reflexivity.
Qed.

Lemma signPsbts_loop_pushed (self : BitcoinCoreWallet) (psbtsHexes : list string) :
  forall (signedPsbts : list string) (w : World Node),
    signPsbts_loop rpc buffer self psbtsHexes signedPsbts w
    = match signPsbts_loop rpc buffer self psbtsHexes [] w with
      | (Return more, w') => (Return (signedPsbts ++ more), w')
      | (Throw e, w') => (Throw e, w')
      end.
Proof.
  induction psbtsHexes as [| psbtHex rest IH]; intros signedPsbts w; simpl.
  - unfold ret. rewrite app_nil_r. reflexivity.
  - unfold bind. destruct (signPsbt rpc buffer self psbtHex w) as [[signedPsbt | e] w1];
      [| reflexivity].
    rewrite (IH (signedPsbts ++ [signedPsbt])), (IH ([] ++ [signedPsbt])).
    destruct (signPsbts_loop rpc buffer self rest [] w1) as [[more | e] w2]; [| reflexivity].
    rewrite <- app_assoc. reflexivity.
Qed.

(** X7. Signing a sequence made of two parts is signing the first part and
    then the second in the world the first left, the results put end to
    end; an error in the first part is the error of the whole and the
    second part is not started. *)
Theorem signPsbts_app (self : BitcoinCoreWallet) (first second : list string) (w : World Node) :
  signPsbts rpc buffer self (first ++ second) w
  = match signPsbts rpc buffer self first w with
    | (Return signedFirst, w1) =>
        match signPsbts rpc buffer self second w1 with
        | (Return signedSecond, w2) => (Return (signedFirst ++ signedSecond), w2)
        | (Throw e, w2) => (Throw e, w2)
        end
    | (Throw e, w1) => (Throw e, w1)
    end.
Proof.
  unfold signPsbts. revert w.
  induction first as [| psbtHex rest IH]; intros w; simpl.
  - unfold ret. destruct (signPsbts_loop rpc buffer self second [] w) as [[r | e] w2]; reflexivity.
  - unfold bind. destruct (signPsbt rpc buffer self psbtHex w) as [[signedPsbt | e] w1];
      [| reflexivity].
    rewrite (signPsbts_loop_pushed self (rest ++ second) ([] ++ [signedPsbt])), IH.
    rewrite (signPsbts_loop_pushed self rest ([] ++ [signedPsbt])).
    destruct (signPsbts_loop rpc buffer self rest [] w1) as [[r1 | e] w2]; [| reflexivity].
    destruct (signPsbts_loop rpc buffer self second [] w2) as [[r2 | e] w3]; [| reflexivity].
    rewrite app_assoc. reflexivity.
Qed.

Lemma signPsbts_loop_thrown (self : BitcoinCoreWallet) (psbtsHexes : list string) :
  forall (signedPsbts : list string) (w w2 : World Node) (e : Js.Error),
    signPsbts_loop rpc buffer self psbtsHexes signedPsbts w = (Throw e, w2) ->
    exists before psbtHex after signed w1,
      psbtsHexes = before ++ psbtHex :: after /\
      Signed rpc buffer self w before signed w1 /\
      signPsbt rpc buffer self psbtHex w1 = (Throw e, w2).
Proof.
  induction psbtsHexes as [| psbtHex rest IH]; intros signedPsbts w w2 e Hrun; simpl in Hrun.
  - discriminate.
  - unfold bind in Hrun.
    destruct (signPsbt rpc buffer self psbtHex w) as [[signedPsbt | e'] w1] eqn:Hsign.
    + destruct (IH _ _ _ _ Hrun) as (before & x & after & signed & w1' & -> & Hbefore & Hthrow).
      exists (psbtHex :: before), x, after, (signedPsbt :: signed), w1'.
      repeat split; [| exact Hthrow]. econstructor; eassumption.
    + injection Hrun as <- <-.
      exists [], psbtHex, rest, [], w. repeat split; [constructor | exact Hsign].
Qed.

(** X8. An error of [signPsbts] is always the error [signPsbt] threw on
    the first element it could not sign, in the world where the elements
    before it were signed; [signPsbts] throws nothing of its own. *)
Theorem signPsbts_rejected_by_first_failure (self : BitcoinCoreWallet)
  (psbtsHexes : list string) (w w2 : World Node) (e : Js.Error) :
  signPsbts rpc buffer self psbtsHexes w = (Throw e, w2) ->
  exists before psbtHex after signed w1,
    psbtsHexes = before ++ psbtHex :: after /\
    Signed rpc buffer self w before signed w1 /\
    signPsbt rpc buffer self psbtHex w1 = (Throw e, w2).
Proof.
  unfold signPsbts. apply signPsbts_loop_thrown.
Qed.

End AddressAndSigningFurther.

(** ** [signPsbtFromBase64], [dumpPrivKey], [signMessageBIP322], [getPublicKeyHex] *)

Section AdapterRestProperties.

Context {Node : Type}.
Variable wrpc : WalletRpc.Client Node.
Variable lib : BitcoinJs.Library.

Lemma forEach_signInput_calls (psbt : BitcoinJs.Psbt lib) (i : nat)
  (ecPairs : list (BitcoinJs.ECPair lib)) :
  forEach_signInput lib psbt i ecPairs = signInputs lib psbt (map (pair i) ecPairs).
Proof.
  revert psbt. induction ecPairs as [| ecPair rest IH]; intros psbt; simpl.
  - reflexivity.
  - destruct (BitcoinJs.signInput lib psbt i ecPair); [apply IH | reflexivity].
Qed.

Lemma signInputs_app (calls more : list (nat * BitcoinJs.ECPair lib)) :
  forall psbt,
    signInputs lib psbt (calls ++ more)
    = match signInputs lib psbt calls with
      | Return psbt => signInputs lib psbt more
      | Throw e => Throw e
      end.
Proof.
  induction calls as [| [i ecPair] rest IH]; intros psbt; simpl.
  - reflexivity.
  - destruct (BitcoinJs.signInput lib psbt i ecPair); [apply IH | reflexivity].
Qed.

(** What follows the two loops of [signPsbtFromBase64]. *)
Definition afterSigning (shouldExtractTransaction : bool)
  (signing : Completion (BitcoinJs.Psbt lib)) : Completion string :=
  match signing with
  | Throw e => Throw e
  | Return psbt =>
      if shouldExtractTransaction then
        match BitcoinJs.finalizeAllInputs lib psbt with
        | Throw e => Throw e
        | Return psbt =>
            match BitcoinJs.extractTransaction lib psbt with
            | Throw e => Throw e
            | Return transaction => Return (BitcoinJs.toHex lib transaction)
            end
        end
      else Return (BitcoinJs.toBase64 lib psbt)
  end.

Section CountKept.

(** Signing an input leaves the number of inputs as it is. *)
Hypothesis signInput_inputCount :
  forall psbt i ecPair psbt',
    BitcoinJs.signInput lib psbt i ecPair = Return psbt' ->
    BitcoinJs.inputCount lib psbt' = BitcoinJs.inputCount lib psbt.

Lemma signInputs_inputCount (calls : list (nat * BitcoinJs.ECPair lib)) :
  forall psbt psbt',
    signInputs lib psbt calls = Return psbt' ->
    BitcoinJs.inputCount lib psbt' = BitcoinJs.inputCount lib psbt.
Proof.
  induction calls as [| [i ecPair] rest IH]; intros psbt psbt' Hrun; simpl in Hrun.
  - injection Hrun as <-. reflexivity.
  - destruct (BitcoinJs.signInput lib psbt i ecPair) as [psbt1 | e] eqn:Hsign; [| discriminate].
    rewrite (IH _ _ Hrun). eapply signInput_inputCount. exact Hsign.
Qed.

Lemma signPsbtFromBase64_loop_calls (ecPairs : list (BitcoinJs.ECPair lib)) (fuel : nat) :
  forall psbt i,
    BitcoinJs.inputCount lib psbt - i < fuel ->
    signPsbtFromBase64_loop lib fuel psbt i ecPairs
    = Some (signInputs lib psbt
              (list_prod (seq i (BitcoinJs.inputCount lib psbt - i)) ecPairs)).
Proof.
  induction fuel as [| fuel IH]; intros psbt i Hfuel; [lia |].
  simpl. destruct (Nat.ltb_spec i (BitcoinJs.inputCount lib psbt)) as [Hlt | Hge].
  - replace (BitcoinJs.inputCount lib psbt - i)
      with (S (BitcoinJs.inputCount lib psbt - S i)) by lia.
    simpl. rewrite signInputs_app, forEach_signInput_calls.
    destruct (signInputs lib psbt (map (pair i) ecPairs)) as [psbt' | e] eqn:Hsigned;
      [| reflexivity].
    pose proof (signInputs_inputCount _ _ _ Hsigned) as Hcount.
    rewrite IH by lia. rewrite Hcount. reflexivity.
  - replace (BitcoinJs.inputCount lib psbt - i) with 0 by lia. reflexivity.
Qed.

(** X9. Given enough turns, [signPsbtFromBase64] signs input after input,
    each with every key pair in the order of [ecPairs], and stops at the
    first signing call that throws, whose error it throws; only when every
    call has returned does it finalize and extract, or encode the PSBT. *)
Theorem signPsbtFromBase64_signs_input_by_input (self : BitcoinCoreWallet) (fuel : nat)
  (psbtBase64 : string) (ecPairs : list (BitcoinJs.ECPair lib))
  (shouldExtractTransaction : bool) (psbt : BitcoinJs.Psbt lib) :
  BitcoinJs.fromBase64 lib psbtBase64 = Return psbt ->
  BitcoinJs.inputCount lib psbt < fuel ->
  signPsbtFromBase64 lib fuel self psbtBase64 ecPairs shouldExtractTransaction
  = Some (afterSigning shouldExtractTransaction
            (signInputs lib psbt (list_prod (seq 0 (BitcoinJs.inputCount lib psbt)) ecPairs))).
Proof.
  intros Hparse Hfuel. unfold signPsbtFromBase64. rewrite Hparse.
  rewrite signPsbtFromBase64_loop_calls by lia. rewrite Nat.sub_0_r.
  destruct (signInputs lib psbt _) as [psbt' | e]; simpl; [| reflexivity].
  destruct shouldExtractTransaction; [| reflexivity].
  destruct (BitcoinJs.finalizeAllInputs lib psbt') as [psbt'' | e]; [| reflexivity].
  destruct (BitcoinJs.extractTransaction lib psbt''); reflexivity.
Qed.

End CountKept.

Lemma signPsbtFromBase64_loop_no_keys (fuel : nat) :
  forall (psbt : BitcoinJs.Psbt lib) i,
    BitcoinJs.inputCount lib psbt - i < fuel ->
    signPsbtFromBase64_loop lib fuel psbt i [] = Some (Return psbt).
Proof.
  induction fuel as [| fuel IH]; intros psbt i Hfuel; [lia |].
  simpl. destruct (Nat.ltb_spec i (BitcoinJs.inputCount lib psbt)) as [Hlt | Hge].
  - apply IH. lia.
  - reflexivity.
Qed.

(** X10. With no key pair, [signPsbtFromBase64] signs nothing and throws
    nothing of its own: it encodes the PSBT it parsed, or, asked for the
    transaction, finalizes and extracts that unsigned PSBT. *)
Theorem signPsbtFromBase64_without_keys (self : BitcoinCoreWallet) (fuel : nat)
  (psbtBase64 : string) (shouldExtractTransaction : bool) (psbt : BitcoinJs.Psbt lib) :
  BitcoinJs.fromBase64 lib psbtBase64 = Return psbt ->
  BitcoinJs.inputCount lib psbt < fuel ->
  signPsbtFromBase64 lib fuel self psbtBase64 [] shouldExtractTransaction
  = Some (afterSigning shouldExtractTransaction (Return psbt)) /\
  signPsbtFromBase64 lib fuel self psbtBase64 [] false
  = Some (Return (BitcoinJs.toBase64 lib psbt)).
Proof.
  intros Hparse Hfuel. unfold signPsbtFromBase64. rewrite Hparse.
  rewrite signPsbtFromBase64_loop_no_keys by lia. split; [| reflexivity].
  destruct shouldExtractTransaction; simpl; [| reflexivity].
  destruct (BitcoinJs.finalizeAllInputs lib psbt) as [psbt' | e]; [| reflexivity].
  destruct (BitcoinJs.extractTransaction lib psbt'); reflexivity.
Qed.

(** X11. Given a non-empty address, [dumpPrivKey] asks the node for the key
    of that address without looking for the wallet's own address, writes
    the key to the console twice on one line, and only then decodes it,
    always with the parameters of regtest: the key is on the console also
    when decoding throws. *)
Theorem dumpPrivKey_of_given_address (self : BitcoinCoreWallet) (address : string)
  (w : World Node) (privateKey : string) (n' : Node) :
  Js.truthy_string address = true ->
  WalletRpc.dumpPrivKey wrpc (client self) address (node w) = (Return privateKey, n') ->
  dumpPrivKey wrpc lib self (Some address) w
  = (BitcoinJs.fromWIF lib privateKey BitcoinJs.regtest,
     {| node := n';
        console := console w
          ++ [console_log [Text "private key: "; Text privateKey; Text privateKey]] |}).
Proof.
  intros Htruthy Hrpc. unfold dumpPrivKey. rewrite Htruthy. run_async. rewrite Hrpc.
  unfold now. simpl. destruct (BitcoinJs.fromWIF lib privateKey BitcoinJs.regtest); reflexivity.
Qed.

(** X12. Without an address, or with the empty string for one,
    [dumpPrivKey] dumps the key of the address [getAddress] answers with,
    in the world [getAddress] leaves. *)
Theorem dumpPrivKey_of_own_address (self : BitcoinCoreWallet) (w w1 : World Node)
  (address privateKey : string) (n' : Node) :
  getAddress (WalletRpc.core wrpc) self w = (Return address, w1) ->
  WalletRpc.dumpPrivKey wrpc (client self) address (node w1) = (Return privateKey, n') ->
  dumpPrivKey wrpc lib self None w
  = (BitcoinJs.fromWIF lib privateKey BitcoinJs.regtest,
     {| node := n';
        console := console w1
          ++ [console_log [Text "private key: "; Text privateKey; Text privateKey]] |}) /\
  dumpPrivKey wrpc lib self (Some EmptyString) w = dumpPrivKey wrpc lib self None w.
Proof.
  intros Haddress Hrpc. split; [| reflexivity].
  unfold dumpPrivKey, bind at 1. rewrite Haddress. run_async. rewrite Hrpc.
  unfold now. simpl. destruct (BitcoinJs.fromWIF lib privateKey BitcoinJs.regtest); reflexivity.
Qed.

(** X13. [signMessageBIP322] and [getPublicKeyHex] each look their address
    up through [getAddress] when called. On a wallet whose listing is and
    stays empty, signing creates an address and signs with it, and asking
    for the public key next creates another address and answers with the
    key of that one. *)
Theorem signMessageBIP322_then_getPublicKeyHex_on_empty_listing (self : BitcoinCoreWallet)
  (message : string) (w : World Node) (n1 n2 n3 n4 n5 n6 : Node)
  (address1 address2 signature : string) (info : WalletRpc.AddressInfo) :
  Rpc.listReceivedByAddress (WalletRpc.core wrpc) (client self) [] (node w) = (Return [], n1) ->
  Rpc.getNewAddress (WalletRpc.core wrpc) (client self) "primary" "bech32" n1
  = (Return address1, n2) ->
  WalletRpc.signMessage wrpc (client self) address1 message n2 = (Return signature, n3) ->
  Rpc.listReceivedByAddress (WalletRpc.core wrpc) (client self) [] n3 = (Return [], n4) ->
  Rpc.getNewAddress (WalletRpc.core wrpc) (client self) "primary" "bech32" n4
  = (Return address2, n5) ->
  WalletRpc.validateAddress wrpc (client self) address2 n5 = (Return info, n6) ->
  let signed := signMessageBIP322 wrpc self message w in
  signed
  = (Return signature,
     {| node := n3;
        console := console w ++ [console_log [Text "Taproot Address:"; Text address1]] |}) /\
  getPublicKeyHex wrpc self (snd signed)
  = (Return (WalletRpc.pubkey info),
     {| node := n6;
        console := (console w ++ [console_log [Text "Taproot Address:"; Text address1]])
                   ++ [console_log [Text "Taproot Address:"; Text address2]] |}).
Proof.
  intros Hlist1 Hnew1 Hsign Hlist2 Hnew2 Hinfo signed.
  assert (Hsigned : signed
            = (Return signature,
               {| node := n3;
                  console := console w
                    ++ [console_log [Text "Taproot Address:"; Text address1]] |})).
  { unfold signed, signMessageBIP322, bind.
    rewrite (getAddress_creates _ self w n1 n2 address1 Hlist1 Hnew1).
    unfold await, ret. simpl. rewrite Hsign. reflexivity. }
  split; [exact Hsigned |].
  rewrite Hsigned. simpl. unfold getPublicKeyHex, bind.
  rewrite (getAddress_creates _ self
             {| node := n3;
                console := console w
                  ++ [console_log [Text "Taproot Address:"; Text address1]] |}
             n4 n5 address2 Hlist2 Hnew2).
  unfold await, ret. simpl. rewrite Hinfo. reflexivity.
Qed.

End AdapterRestProperties.

(** * The further properties on the scripted endpoint *)

Module Further.

Import Sample.

(** A listing whose second output has no numeric amount. *)
Definition with_nan_amount : TestNode.State :=
  {| TestNode.online := true;
     TestNode.info := TestNode.info state;
     TestNode.addressBook := TestNode.addressBook state;
     TestNode.keypool := TestNode.keypool state;
     TestNode.coins :=
       [ (payee, coin "aa" 0 btc_0_000003);
         (payee, coin "nn" 1 PrimFloat.nan);
         (payee, coin "cc" 0 btc_0_0005) ];
     TestNode.estimate := TestNode.estimate state;
     TestNode.signer := TestNode.signer state |}.

(** A node without a fee estimate. *)
Definition without_estimate : TestNode.State :=
  {| TestNode.online := true;
     TestNode.info := TestNode.info state;
     TestNode.addressBook := TestNode.addressBook state;
     TestNode.keypool := TestNode.keypool state;
     TestNode.coins := TestNode.coins state;
     TestNode.estimate := {| Rpc.feerate := None; Rpc.blocks := 0 |};
     TestNode.signer := TestNode.signer state |}.

(** A wallet whose first listed entry has no address. *)
Definition with_empty_address : TestNode.State :=
  {| TestNode.online := true;
     TestNode.info := TestNode.info state;
     TestNode.addressBook :=
       [ {| Rpc.address := EmptyString; Rpc.label := "primary"; Rpc.received := 1 |};
         {| Rpc.address := "bcrt1qprimary"; Rpc.label := "primary"; Rpc.received := 2 |} ];
     TestNode.keypool := TestNode.keypool state;
     TestNode.coins := TestNode.coins state;
     TestNode.estimate := TestNode.estimate state;
     TestNode.signer := TestNode.signer state |}.

End Further.

Example getUtxos_negative_target :
  getUtxos TestNode.rpc Sample.wallet Sample.payee (Some (-1)%float) (Sample.world Sample.state)
  = (Return [Run.utxo "aa" 0 50000], Sample.world Sample.state).
Proof. vm_compute. reflexivity. Qed.


Example getUtxos_nan_amount_sample :
  getUtxos TestNode.rpc Sample.wallet Sample.payee (Some 1000%float)
    (Sample.world Further.with_nan_amount)
  = (Return [], Sample.world Further.with_nan_amount) /\
  getUtxos TestNode.rpc Sample.wallet Sample.payee (Some 200%float)
    (Sample.world Further.with_nan_amount)
  = (Return [Run.utxo "aa" 0 300], Sample.world Further.with_nan_amount).
Proof. split; vm_compute; reflexivity. Qed.

Lemma getUtxos_nan_amount_gives_nothing_witness :
  getUtxos TestNode.rpc Sample.wallet Sample.payee (Some 1000%float)
    (Sample.world Further.with_nan_amount)
  = (Return [], Sample.world Further.with_nan_amount).
Proof.
  refine (getUtxos_nan_amount_gives_nothing TestNode.rpc Sample.wallet Sample.payee 1000
            (Sample.world Further.with_nan_amount)
            [Sample.coin "aa" 0 Sample.btc_0_000003; Sample.coin "nn" 1 PrimFloat.nan;
             Sample.coin "cc" 0 Sample.btc_0_0005]
            Further.with_nan_amount 1 (Sample.coin "nn" 1 PrimFloat.nan)
            eq_refl eq_refl eq_refl eq_refl _).
  intros j Hj. assert (j = 1) as -> by lia. reflexivity.
Defined.

Lemma getUtxos_smaller_target_prefix_witness :
  exists for_smaller for_larger,
    getUtxos TestNode.rpc Sample.wallet Sample.payee (Some 50200%float) (Sample.world Sample.state)
    = (Return for_smaller, Sample.world Sample.state) /\
    getUtxos TestNode.rpc Sample.wallet Sample.payee (Some 50400%float) (Sample.world Sample.state)
    = (Return for_larger, Sample.world Sample.state) /\
    (for_larger <> [] ->
     for_smaller <> [] /\ exists k, k <= length for_larger /\ for_smaller = firstn k for_larger).
Proof.
  exact (getUtxos_smaller_target_prefix TestNode.rpc Sample.wallet Sample.payee 50200 50400
           (Sample.world Sample.state) Run.listed Sample.state eq_refl eq_refl eq_refl eq_refl).
Defined.

Example getUtxos_target_50400 :
  getUtxos TestNode.rpc Sample.wallet Sample.payee (Some 50400%float) (Sample.world Sample.state)
  = (Return [Run.utxo "aa" 0 50000; Run.utxo "cc" 0 300; Run.utxo "dd" 2 200],
     Sample.world Sample.state).
Proof. vm_compute. reflexivity. Qed.

Lemma getNetworkFees_without_estimate_is_nan_witness :
  getNetworkFees TestNode.rpc Sample.wallet (Sample.world Further.without_estimate)
  = (Return {| fastestFee := 1000;
               halfHourFee := PrimFloat.nan;
               hourFee := PrimFloat.nan;
               economyFee := PrimFloat.nan;
               minimumFee := PrimFloat.nan |},
     Sample.world Further.without_estimate).
Proof.
  exact (getNetworkFees_without_estimate_is_nan TestNode.rpc Sample.wallet
           (Sample.world Further.without_estimate)
           {| Rpc.feerate := None; Rpc.blocks := 0 |} Further.without_estimate
           eq_refl eq_refl).
Defined.

Lemma getAddress_empty_first_address_creates_witness :
  fst (getAddress TestNode.rpc Sample.wallet (Sample.world Further.with_empty_address))
  = Return "bcrt1qfresh0".
Proof.
  rewrite (getAddress_empty_first_address_creates TestNode.rpc Sample.wallet
             (Sample.world Further.with_empty_address)
             {| Rpc.address := EmptyString; Rpc.label := "primary"; Rpc.received := 1 |}
             [{| Rpc.address := "bcrt1qprimary"; Rpc.label := "primary"; Rpc.received := 2 |}]
             Further.with_empty_address
             (snd (TestNode.getNewAddress (client Sample.wallet) "primary" "bech32"
                     Further.with_empty_address))
             "bcrt1qfresh0" eq_refl eq_refl eq_refl).
  reflexivity.
Defined.

Example getAddress_rejected_offline :
  fst (getAddress TestNode.rpc Sample.wallet (Sample.world Sample.offline))
  = Throw TestNode.refused.
Proof. vm_compute. reflexivity. Qed.

Lemma signPsbts_rejected_by_first_failure_witness :
  exists before psbtHex after signed w1,
    [Sample.unsigned_psbt; "70736274ff0105"; "70736274ff0103"] = before ++ psbtHex :: after /\
    Signed TestNode.rpc NodeBuffer.api Sample.wallet (Sample.world Sample.state) before signed w1 /\
    signPsbt TestNode.rpc NodeBuffer.api Sample.wallet psbtHex w1
    = (Throw {| Js.message := "TX decode failed" |},
       snd (signPsbts TestNode.rpc NodeBuffer.api Sample.wallet
              [Sample.unsigned_psbt; "70736274ff0105"; "70736274ff0103"]
              (Sample.world Sample.state))).
Proof.
  exact (signPsbts_rejected_by_first_failure TestNode.rpc NodeBuffer.api Sample.wallet
           [Sample.unsigned_psbt; "70736274ff0105"; "70736274ff0103"]
           (Sample.world Sample.state) _ {| Js.message := "TX decode failed" |} eq_refl).
Defined.

Example signPsbts_app_sample :
  signPsbts TestNode.rpc NodeBuffer.api Sample.wallet
    ([Sample.unsigned_psbt] ++ ["70736274ff0103"]) (Sample.world Sample.state)
  = (Return (["70736274ff0101"] ++ ["70736274ff0102"]),
     snd (signPsbts TestNode.rpc NodeBuffer.api Sample.wallet ["70736274ff0103"]
            (snd (signPsbts TestNode.rpc NodeBuffer.api Sample.wallet [Sample.unsigned_psbt]
                    (Sample.world Sample.state))))).
Proof. vm_compute. reflexivity. Qed.

(** ** The rest of the adapter *)

Lemma TestWallet_signInput_inputCount (psbt : TestWallet.Psbt) (i : nat) (ecPair : string)
  (psbt' : TestWallet.Psbt) :
  TestWallet.signInput psbt i ecPair = Return psbt' ->
  TestWallet.inputs psbt' = TestWallet.inputs psbt.
Proof.
  unfold TestWallet.signInput. destruct (Nat.ltb i (TestWallet.inputs psbt)); [| discriminate].
  intros H. injection H as <-. reflexivity.
Defined.

Example signPsbtFromBase64_two_keys :
  signPsbtFromBase64 TestWallet.library 3 Sample.wallet "ab" ["cK1"; "cK2"] false
  = Some (Return "abcK1cK2cK1cK2") /\
  signPsbtFromBase64 TestWallet.library 3 Sample.wallet "ab" ["cK1"; "cK2"] true
  = Some (Return "abcK1cK2cK1cK2") /\
  signPsbtFromBase64 TestWallet.library 3 Sample.wallet "ab" [] true
  = Some (Throw {| Js.message := "No script found for input" |}) /\
  signPsbtFromBase64 TestWallet.library 3 Sample.wallet EmptyString ["cK1"] true
  = Some (Throw {| Js.message := "Format Error: Invalid Magic Number" |}).
Proof. repeat split; vm_compute; reflexivity. Qed.

Lemma signPsbtFromBase64_signs_input_by_input_witness :
  signPsbtFromBase64 TestWallet.library 3 Sample.wallet "ab" ["cK1"; "cK2"] false
  = Some (afterSigning TestWallet.library false
            (signInputs TestWallet.library
               {| TestWallet.text := "ab"; TestWallet.inputs := 2;
                  TestWallet.signatures := []; TestWallet.finalized := false |}
               [(0, "cK1"); (0, "cK2"); (1, "cK1"); (1, "cK2")])).
Proof.
  exact (signPsbtFromBase64_signs_input_by_input TestWallet.library
           TestWallet_signInput_inputCount Sample.wallet 3 "ab" ["cK1"; "cK2"] false
           {| TestWallet.text := "ab"; TestWallet.inputs := 2;
              TestWallet.signatures := []; TestWallet.finalized := false |}
           eq_refl (le_n 3)).
Defined.

Lemma signPsbtFromBase64_without_keys_witness :
  signPsbtFromBase64 TestWallet.library 3 Sample.wallet "ab" [] false = Some (Return "ab").
Proof.
  exact (proj2 (signPsbtFromBase64_without_keys TestWallet.library Sample.wallet 3 "ab" false
                  {| TestWallet.text := "ab"; TestWallet.inputs := 2;
                     TestWallet.signatures := []; TestWallet.finalized := false |}
                  eq_refl (le_n 3))).
Defined.

Lemma dumpPrivKey_of_given_address_witness :
  dumpPrivKey TestWallet.rpc TestWallet.library Sample.wallet (Some "bcrt1qprimary")
    (TestWallet.world Sample.state)
  = (Return "cPrimaryKey",
     {| node := TestWallet.state Sample.state;
        console := [console_log [Text "private key: "; Text "cPrimaryKey"; Text "cPrimaryKey"]] |}).
Proof.
  exact (dumpPrivKey_of_given_address TestWallet.rpc TestWallet.library Sample.wallet
           "bcrt1qprimary" (TestWallet.world Sample.state) "cPrimaryKey"
           (TestWallet.state Sample.state) eq_refl eq_refl).
Defined.

Lemma dumpPrivKey_of_own_address_witness :
  fst (dumpPrivKey TestWallet.rpc TestWallet.library Sample.wallet None
         (TestWallet.world Sample.state))
  = Return "cSavingsKey".
Proof.
  rewrite (proj1 (dumpPrivKey_of_own_address TestWallet.rpc TestWallet.library Sample.wallet
                    (TestWallet.world Sample.state) (TestWallet.world Sample.state)
                    "bcrt1qsavings" "cSavingsKey" (TestWallet.state Sample.state)
                    eq_refl eq_refl)).
  reflexivity.
Defined.

Example dumpPrivKey_unknown_address :
  dumpPrivKey TestWallet.rpc TestWallet.library Sample.wallet (Some "bcrt1qother")
    (TestWallet.world Sample.state)
  = (Throw {| Js.message := "Private key for address is not known" |},
     TestWallet.world Sample.state).
Proof. vm_compute. reflexivity. Qed.

Lemma signMessageBIP322_then_getPublicKeyHex_on_empty_listing_witness :
  let signed := signMessageBIP322 TestWallet.rpc Sample.wallet "hello"
                  (TestWallet.world Sample.unfunded) in
  fst signed = Return "signed by bcrt1qfresh0: hello" /\
  fst (getPublicKeyHex TestWallet.rpc Sample.wallet (snd signed)) = Return (Some "02c1").
Proof.
  intros signed.
  assert (Hfirst : WalletRpc.validateAddress TestWallet.rpc (client Sample.wallet) "bcrt1qfresh1"
                     (node (snd (getAddress TestWallet.core Sample.wallet (snd signed))))
                   = (Return {| WalletRpc.isvalid := true; WalletRpc.pubkey := Some "02c1" |},
                      node (snd (getAddress TestWallet.core Sample.wallet (snd signed)))))
    by reflexivity.
  destruct (signMessageBIP322_then_getPublicKeyHex_on_empty_listing TestWallet.rpc Sample.wallet
              "hello" (TestWallet.world Sample.unfunded)
              (TestWallet.state Sample.unfunded)
              (node (snd (getAddress TestWallet.core Sample.wallet
                            (TestWallet.world Sample.unfunded))))
              (node (snd signed)) (node (snd signed))
              (node (snd (getAddress TestWallet.core Sample.wallet (snd signed))))
              (node (snd (getAddress TestWallet.core Sample.wallet (snd signed))))
              "bcrt1qfresh0" "bcrt1qfresh1" "signed by bcrt1qfresh0: hello"
              {| WalletRpc.isvalid := true; WalletRpc.pubkey := Some "02c1" |}
              eq_refl eq_refl eq_refl eq_refl eq_refl Hfirst) as [Hsigned Hkey].
  split.
  - unfold signed. rewrite Hsigned. reflexivity.
  - unfold signed. rewrite Hkey. reflexivity.
Defined.
